(** * Silo inventory backend (backend/app.py): model and verified properties

    The Flask handlers of [backend/app.py] are embedded as pure functions
    from a committed store to a new store and an outcome.  The two tables
    ([silos], [operations]) are finite maps from the primary key to the
    remaining columns.  A handler that returns without [db.commit()] leaves
    the store as it was ([db.close()] in the [finally] block discards the
    unit of work); a handler that commits installs the whole unit of work.

    Conventions of the embedding:
    - Python [int] is [Z]; a [datetime] is a [Z] instant; a [str] is a Rocq
      [string] read as a sequence of code points below 256.
    - The JSON body is taken well-typed: [name] and [cereal] are a string or
      absent/null, [amount] is an integer or absent/null.
    - [datetime.utcnow] is an input of the handlers that insert a row.
    - New primary keys follow the rowid rule of the SQLite fallback store
      (one more than the largest key in the table); the properties below
      only use that the key is new.
    - Column widths ([String(100)], [String(20)]) and the display
      formatting of timestamps ([fmt_ts]) are not modelled.
    - The handlers are modelled for the integers that an [Integer] column
      of the store takes, [int64]: a silo id outside that range in the
      path of a request, or a load that brings a balance outside it,
      makes the driver of the store raise [OverflowError] before anything
      is written, and that exception is not in the model.  The
      properties that depend on it carry the range as a hypothesis
      ([int64], [fits], [all_fit]). *)

From Stdlib Require Import ZArith String Ascii Lia.
From stdpp Require Import base option list gmap strings fin_maps sorting.

Local Open Scope string_scope.
Local Open Scope Z_scope.

(** ** Models *)

Definition datetime := Z.

(** The values of an [Integer] column: 64-bit signed integers. *)
Definition int64 (v : Z) : Prop := - 2 ^ 63 ≤ v < 2 ^ 63.

Module Silo.
(** [class Silo(Base)]: the columns other than the primary key [id]. *)
Record t := mk {
  name : string;
  cereal : option string;
  balance_kg : Z;
  created_at : datetime
}.

Definition set_name (v : string) (s : t) : t :=
  mk v (cereal s) (balance_kg s) (created_at s).
Definition set_cereal (v : option string) (s : t) : t :=
  mk (name s) v (balance_kg s) (created_at s).
Definition set_balance_kg (v : Z) (s : t) : t :=
  mk (name s) (cereal s) v (created_at s).

(** [CheckConstraint("balance_kg >= 0", name="balance_non_negative")] *)
Definition balance_non_negative (s : t) : Prop := 0 ≤ balance_kg s.
End Silo.

Module Operation.
(** [class Operation(Base)]: the columns other than the primary key. *)
Record t := mk {
  silo_id : Z;
  type : string;
  amount : Z;
  created_at : datetime
}.
End Operation.

(** The committed content of the database. *)
Record DB := mkDB {
  silos : gmap Z Silo.t;
  operations : gmap Z Operation.t
}.

Definition empty_db : DB := mkDB ∅ ∅.

(** [ALLOWED_CEREALES = {"Soja", "Maiz", "Trigo", "Girasol"}] *)
Definition ALLOWED_CEREALES : gset string :=
  {[ "Soja"; "Maiz"; "Trigo"; "Girasol" ]}.

(** ** Python helpers *)

(** [str.isspace] on one code point below 256. *)
Definition isspace (a : ascii) : bool :=
  let n := Z.of_nat (nat_of_ascii a) in
  ((9 <=? n) && (n <=? 13)) || ((28 <=? n) && (n <=? 32))
  || (n =? 133) || (n =? 160).

Fixpoint lstrip (s : string) : string :=
  match s with
  | EmptyString => EmptyString
  | String a s' => if isspace a then lstrip s' else s
  end.

Fixpoint rstrip (s : string) : string :=
  match s with
  | EmptyString => EmptyString
  | String a s' =>
      match rstrip s' with
      | EmptyString => if isspace a then EmptyString else String a EmptyString
      | r => String a r
      end
  end.

(** [str.strip()] *)
Definition strip (s : string) : string := rstrip (lstrip s).

(** Truth value of an optional string: [None] and [""] are false. *)
Definition truthy (v : option string) : bool :=
  match v with
  | Some s => negb (bool_decide (s = ""))
  | None => false
  end.

(** [v in ALLOWED_CEREALES]; [None] is in no set of strings. *)
Definition allowed (v : option string) : bool :=
  match v with
  | Some s => bool_decide (s ∈ ALLOWED_CEREALES)
  | None => false
  end.

(** ** Requests and responses *)

(** [request.get_json(force=True) or {}], with the keys the handlers read. *)
Record json := mkJson {
  j_name : option string;
  j_amount : option Z;
  j_cereal : option string
}.

(** One row of the list returned by [resumen]. *)
Record entry := mkEntry {
  e_id : Z;
  e_silo_id : Z;
  e_silo_name : option string;
  e_type : string;
  e_amount : Z;
  e_timestamp : datetime;
  e_balance_kg_post : option Z
}.

(** The dictionaries passed to [jsonify]. *)
Inductive payload :=
  | Error (error : string)
  | Message (message : string)
  | Created (message : string) (id : Z)
  | Carga (message : string) (balance_kg : Z) (cereal : option string)
  | Descarga (message : string) (balance_kg : Z)
  | Resumen (data : list entry).

(** A returned pair [(jsonify(...), status)]; a bare [jsonify] is 200. *)
Definition response : Type := payload * Z.

(** Exceptions that leave a handler uncaught (Flask answers 500). *)
Inductive exn := IntegrityError | AttributeError.

Inductive outcome :=
  | Response (r : response)
  | Raised (e : exn).

(** The error responses of the handlers, named after the error kinds of
    the design. *)
Definition InvalidInput_name : response :=
  (Error "El nombre es obligatorio.", 400).
Definition InvalidInput_new_name : response :=
  (Error "El nuevo nombre es obligatorio.", 400).
Definition InvalidInput_amount : response :=
  (Error "La cantidad debe ser mayor a 0.", 400).
Definition InvalidInput_cereal : response :=
  (Error "Debe seleccionar el cereal (Soja, Maiz, Trigo, Girasol).", 400).
Definition DuplicateName : response :=
  (Error "Ya existe un silo con ese nombre.", 409).
Definition NotFound : response :=
  (Error "Silo no encontrado.", 404).
Definition CerealMismatch (stored : string) : response :=
  (Error ("El silo ya almacena " +:+ stored +:+ ". No puede cambiarse."), 400).
Definition InsufficientStock : response :=
  (Error "No hay suficiente stock en el silo.", 400).

(** The responses that the design files under [InvalidInput]. *)
Definition is_InvalidInput (r : response) : Prop :=
  r = InvalidInput_name ∨ r = InvalidInput_new_name ∨
  r = InvalidInput_amount ∨ r = InvalidInput_cereal.

(** ** The store *)

(** Key given to an inserted row: one more than the largest key. *)
Definition next_id {A} (m : gmap Z A) : Z :=
  1 + map_fold (λ k _ acc, k `max` acc) 0 m.

(** [unique=True] on [Silo.name]: another row already has the name. *)
Definition name_taken (tbl : gmap Z Silo.t) (k : Z) (n : string) : Prop :=
  map_Exists (λ k' s', k' ≠ k ∧ Silo.name s' = n) tbl.

(** INSERT or UPDATE of row [k] of [silos]; [None] is [IntegrityError]. *)
Definition write_silo (db : DB) (k : Z) (row : Silo.t) : option DB :=
  if decide (Silo.balance_non_negative row ∧ ¬ name_taken (silos db) k (Silo.name row))
  then Some (mkDB (<[k := row]> (silos db)) (operations db))
  else None.

(** [db.add(op)]: INSERT into [operations] under a new key. *)
Definition add_operation (db : DB) (op : Operation.t) : DB :=
  mkDB (silos db) (<[next_id (operations db) := op]> (operations db)).

(** [db.delete(s)] with [cascade="all, delete"]: the silo and every
    operation whose [silo_id] is its key. *)
Definition delete_cascade (db : DB) (k : Z) : DB :=
  mkDB (delete k (silos db))
       (filter (λ ko, Operation.silo_id ko.2 ≠ k) (operations db)).

(** ** Handlers *)

(** [POST /api/silos] *)
Definition create_silo (db : DB) (body : json) (now : datetime) : DB * outcome :=
  let name := strip (default "" (j_name body)) in
  if bool_decide (name = "") then (db, Response InvalidInput_name)
  else
    let s := Silo.mk name None 0 now in
    let id := next_id (silos db) in
    match write_silo db id s with
    | Some db' =>
        (db', Response
                (Created ("Silo '" +:+ name +:+ "' creado correctamente.") id, 201))
    | None => (db, Response DuplicateName)
    end.

(** [PATCH /api/silos/<int:silo_id>] *)
Definition rename_silo (db : DB) (silo_id : Z) (body : json) : DB * outcome :=
  let new_name := strip (default "" (j_name body)) in
  if bool_decide (new_name = "") then (db, Response InvalidInput_new_name)
  else
    match silos db !! silo_id with
    | None => (db, Response NotFound)
    | Some s =>
        match write_silo db silo_id (Silo.set_name new_name s) with
        | Some db' => (db', Response (Message "Nombre actualizado.", 200))
        | None => (db, Response DuplicateName)
        end
    end.

(** [DELETE /api/silos/<int:silo_id>] *)
Definition delete_silo (db : DB) (silo_id : Z) : DB * outcome :=
  match silos db !! silo_id with
  | None => (db, Response NotFound)
  | Some _ =>
      (delete_cascade db silo_id, Response (Message "Silo eliminado.", 200))
  end.

(** [POST /api/silos/<int:silo_id>/cargar] *)
Definition cargar (db : DB) (silo_id : Z) (body : json) (now : datetime)
  : DB * outcome :=
  let amount := default 0 (j_amount body) in
  let cereal := j_cereal body in
  if bool_decide (amount ≤ 0) then (db, Response InvalidInput_amount)
  else
    match silos db !! silo_id with
    | None => (db, Response NotFound)
    | Some s =>
        let fresh :=
          bool_decide (Silo.balance_kg s = 0) && bool_decide (Silo.cereal s = None) in
        if fresh && (negb (truthy cereal) || negb (allowed cereal))
        then (db, Response InvalidInput_cereal)
        else
          let s := if fresh then Silo.set_cereal cereal s else s in
          if truthy (Silo.cereal s) && truthy cereal
             && negb (bool_decide (cereal = Silo.cereal s))
          then (db, Response (CerealMismatch (default "" (Silo.cereal s))))
          else
            let s := Silo.set_balance_kg (Silo.balance_kg s + amount) s in
            let op := Operation.mk silo_id "CARGA" amount now in
            match write_silo db silo_id s with
            | Some db' =>
                (add_operation db' op,
                 Response (Carga "Carga registrada."
                                 (Silo.balance_kg s) (Silo.cereal s), 200))
            | None => (db, Raised IntegrityError)
            end
    end.

(** [POST /api/silos/<int:silo_id>/descargar] *)
Definition descargar (db : DB) (silo_id : Z) (body : json) (now : datetime)
  : DB * outcome :=
  let amount := default 0 (j_amount body) in
  if bool_decide (amount ≤ 0) then (db, Response InvalidInput_amount)
  else
    match silos db !! silo_id with
    | None => (db, Response NotFound)
    | Some s =>
        if bool_decide (Silo.balance_kg s - amount < 0)
        then (db, Response InsufficientStock)
        else
          let s := Silo.set_balance_kg (Silo.balance_kg s - amount) s in
          let op := Operation.mk silo_id "DESCARGA" amount now in
          match write_silo db silo_id s with
          | Some db' =>
              (add_operation db' op,
               Response (Descarga "Descarga registrada." (Silo.balance_kg s), 200))
          | None => (db, Raised IntegrityError)
          end
    end.

(** [order_by(Operation.created_at.desc(), Operation.id.desc())] *)
Definition resumen_order : relation (Z * Operation.t) :=
  λ a b,
    Operation.created_at b.2 < Operation.created_at a.2
    ∨ (Operation.created_at a.2 = Operation.created_at b.2 ∧ b.1 ≤ a.1).

Global Instance resumen_order_dec a b : Decision (resumen_order a b) :=
  decide (Operation.created_at b.2 < Operation.created_at a.2
          ∨ (Operation.created_at a.2 = Operation.created_at b.2 ∧ b.1 ≤ a.1)).

Definition query_operations (db : DB) : list (Z * Operation.t) :=
  merge_sort resumen_order (map_to_list (operations db)).

(** The dictionary built for one operation.  [o.silo] is the silo whose
    key is [o.silo_id], or [None]; [db.query(Silo).get(o.silo_id)] is the
    same lookup, and reading [.balance_kg] of [None] raises
    [AttributeError], given here as [None]. *)
Definition resumen_entry (db : DB) (o : Z * Operation.t) : option entry :=
  let silo := silos db !! Operation.silo_id o.2 in
  let silo_name := Silo.name <$> silo in
  balance_kg_post ←
    (if bool_decide (Operation.silo_id o.2 ≠ 0)
     then s ← silos db !! Operation.silo_id o.2; Some (Some (Silo.balance_kg s))
     else Some None);
  Some (mkEntry o.1 (Operation.silo_id o.2) silo_name (Operation.type o.2)
                (Operation.amount o.2) (Operation.created_at o.2)
                balance_kg_post).

(** [GET /api/resumen] *)
Definition resumen (db : DB) : outcome :=
  match mapM (resumen_entry db) (query_operations db) with
  | Some data => Response (Resumen data, 200)
  | None => Raised AttributeError
  end.

(** ** Request sequences *)

Inductive request :=
  | POST_silos (body : json) (now : datetime)
  | PATCH_silo (silo_id : Z) (body : json)
  | DELETE_silo (silo_id : Z)
  | POST_cargar (silo_id : Z) (body : json) (now : datetime)
  | POST_descargar (silo_id : Z) (body : json) (now : datetime)
  | GET_resumen.

Definition handle (db : DB) (r : request) : DB * outcome :=
  match r with
  | POST_silos body now => create_silo db body now
  | PATCH_silo silo_id body => rename_silo db silo_id body
  | DELETE_silo silo_id => delete_silo db silo_id
  | POST_cargar silo_id body now => cargar db silo_id body now
  | POST_descargar silo_id body now => descargar db silo_id body now
  | GET_resumen => (db, resumen db)
  end.

(** The store after a sequence of requests, served one after the other. *)
Definition run (reqs : list request) (db : DB) : DB :=
  foldl (λ db r, (handle db r).1) db reqs.

(** Bodies used by the examples. *)
Definition body_name (n : string) : json := mkJson (Some n) None None.
Definition body_amount (a : Z) : json := mkJson None (Some a) None.
Definition body_load (a : Z) (c : string) : json := mkJson None (Some a) (Some c).

Definition scenario : list request :=
  [ POST_silos (body_name "A") 10;
    POST_cargar 1 (body_load 100 "Soja") 20;
    POST_cargar 1 (body_load 50 "Maiz") 30;
    POST_descargar 1 (body_amount 100) 40;
    POST_cargar 1 (body_load 20 "Maiz") 50;
    POST_cargar 1 (body_load 20 "Soja") 60 ].


(** ** The invariant of the store *)

(** What holds of every row of [silos]. *)
Definition silo_ok (s : Silo.t) : Prop :=
  0 ≤ Silo.balance_kg s
  ∧ (Silo.cereal s = None → Silo.balance_kg s = 0)
  ∧ (∀ c, Silo.cereal s = Some c → c ∈ ALLOWED_CEREALES).

Record db_inv (db : DB) : Prop := mk_db_inv {
  inv_silo : ∀ k s, silos db !! k = Some s → silo_ok s;
  inv_key : ∀ k s, silos db !! k = Some s → 0 < k;
  inv_unique : ∀ k1 k2 s1 s2,
    silos db !! k1 = Some s1 → silos db !! k2 = Some s2 →
    Silo.name s1 = Silo.name s2 → k1 = k2;
  inv_op : ∀ k o, operations db !! k = Some o →
    is_Some (silos db !! Operation.silo_id o) ∧ 0 < Operation.amount o
}.

(** ** Outcomes of load and unload *)

(** An outcome that is not a success: an error response or an exception. *)
Definition failed (out : outcome) : Prop :=
  match out with
  | Response (Error _, status) => status ≠ 200
  | Response _ => False
  | Raised _ => True
  end.

(** The row of a silo after a load that went through. *)
Definition loaded (s : Silo.t) (amount : Z) (cereal : option string) : Silo.t :=
  let fresh :=
    bool_decide (Silo.balance_kg s = 0) && bool_decide (Silo.cereal s = None) in
  let s := if fresh then Silo.set_cereal cereal s else s in
  Silo.set_balance_kg (Silo.balance_kg s + amount) s.

(** The row of a silo after an unload that went through. *)
Definition unloaded (s : Silo.t) (amount : Z) : Silo.t :=
  Silo.set_balance_kg (Silo.balance_kg s - amount) s.

(** The store after the commit of a load or unload: the silo row is
    replaced and one operation is inserted under a new key. *)
Definition committed (db : DB) (k : Z) (row : Silo.t) (op : Operation.t) : DB :=
  mkDB (<[k := row]> (silos db))
       (<[next_id (operations db) := op]> (operations db)).

(** ** Rows of the summary *)

(** The order of the rows of the summary: later instants first, and for
    equal instants larger [id] first. *)
Definition summary_order : relation entry :=
  λ a b, e_timestamp b < e_timestamp a
         ∨ (e_timestamp a = e_timestamp b ∧ e_id b < e_id a).

(** The row of the summary of an operation whose silo is in the store. *)
Definition entry_of (db : DB) (o : Z * Operation.t) : entry :=
  mkEntry o.1 (Operation.silo_id o.2)
          (Silo.name <$> silos db !! Operation.silo_id o.2)
          (Operation.type o.2) (Operation.amount o.2)
          (Operation.created_at o.2)
          (Silo.balance_kg <$> silos db !! Operation.silo_id o.2).

(** ** Stores of the examples *)

(** Silo 1, named A, holding 100 kg of Soja. *)
Definition db_soja : DB :=
  run [ POST_silos (body_name "A") 10;
        POST_cargar 1 (body_load 100 "Soja") 20 ] empty_db.

(** Silo 1 as above, and an empty silo 2 named B. *)
Definition db_two : DB :=
  run [ POST_silos (body_name "A") 10;
        POST_cargar 1 (body_load 100 "Soja") 20;
        POST_silos (body_name "B") 30 ] empty_db.

(** A store with silo 1 and two operations, the second of which names
    silo 7, which is not there. *)
Definition db_dangling : DB :=
  mkDB {[ 1 := Silo.mk "A" (Some "Soja") 100 10 ]}
       {[ 1 := Operation.mk 1 "CARGA" 100 20;
          2 := Operation.mk 7 "CARGA" 5 30 ]}.

(** ** Configuration *)

(** [s.startswith(p)] *)
Definition startswith (s p : string) : bool := String.prefix p s.

(** [s[n:]] *)
Fixpoint string_drop (n : nat) (s : string) : string :=
  match n, s with
  | O, _ => s
  | S _, EmptyString => EmptyString
  | S n', String _ s' => string_drop n' s'
  end.

(** [s.replace(old, new, 1)]: the leftmost occurrence of [old], if there
    is one, is replaced by [new]. *)
Fixpoint replace_first (old new s : string) : string :=
  if String.prefix old s
  then new +:+ string_drop (String.length old) s
  else match s with
       | EmptyString => EmptyString
       | String a s' => String a (replace_first old new s')
       end.

(** [get_database_url], as a function of the value of the environment
    variable [DATABASE_URL] ([None] when it is not set). *)
Definition get_database_url (env : option string) : string :=
  let url := strip (default "" env) in
  if negb (bool_decide (url = "")) then
    let url :=
      if startswith url "postgres://"
      then replace_first "postgres://" "postgresql://" url else url in
    let url :=
      if startswith url "postgresql://"
      then replace_first "postgresql://" "postgresql+psycopg://" url else url in
    url
  else "sqlite:///silos.db".

(** ** The list of silos *)

(** One dictionary of the list returned by [list_silos]; [created_at] is
    the stored instant, before [fmt_ts]. *)
Record silo_row := mkSiloRow {
  r_id : Z;
  r_name : string;
  r_cereal : option string;
  r_balance_kg : Z;
  r_created_at : datetime
}.

(** [order_by(Silo.id)] *)
Definition silo_order : relation (Z * Silo.t) := λ a b, a.1 ≤ b.1.

Global Instance silo_order_dec a b : Decision (silo_order a b) :=
  decide (a.1 ≤ b.1).

Definition query_silos (db : DB) : list (Z * Silo.t) :=
  merge_sort silo_order (map_to_list (silos db)).

(** [GET /api/silos]: the list passed to [jsonify]. *)
Definition list_silos (db : DB) : list silo_row :=
  (λ s, mkSiloRow s.1 (Silo.name s.2) (Silo.cereal s.2)
                  (Silo.balance_kg s.2) (Silo.created_at s.2))
    <$> query_silos db.

(** ** Replay of the operations *)

(** What an operation adds to the balance of its silo. *)
Definition signed_amount (o : Operation.t) : Z :=
  if bool_decide (Operation.type o = "CARGA") then Operation.amount o
  else if bool_decide (Operation.type o = "DESCARGA") then - Operation.amount o
  else 0.

(** The balance of silo [k] computed from the operations alone. *)
Definition ledger_balance (db : DB) (k : Z) : Z :=
  map_fold (λ _ o acc,
              if bool_decide (Operation.silo_id o = k)
              then signed_amount o + acc else acc)
           0 (operations db).

(** A stored name is not empty and has no white space around it. *)
Definition name_ok (s : Silo.t) : Prop :=
  Silo.name s ≠ "" ∧ strip (Silo.name s) = Silo.name s.

(** The silo that a request names in its path, if it names one. *)
Definition target (r : request) : option Z :=
  match r with
  | PATCH_silo k _ | DELETE_silo k | POST_cargar k _ _ | POST_descargar k _ _ =>
      Some k
  | POST_silos _ _ | GET_resumen => None
  end.

(** The integers that the handler of a request hands to the store are
    within [int64]: the id in the path, and for a load the balance that
    the silo would get. *)
Definition fits (db : DB) (r : request) : Prop :=
  match r with
  | POST_silos _ _ | GET_resumen => True
  | PATCH_silo k _ | DELETE_silo k | POST_descargar k _ _ => int64 k
  | POST_cargar k body _ =>
      int64 k
      ∧ match silos db !! k with
        | Some s => Silo.balance_kg s + default 0 (j_amount body) < 2 ^ 63
        | None => True
        end
  end.

(** Every request of a sequence fits the store that it meets. *)
Fixpoint all_fit (db : DB) (reqs : list request) : Prop :=
  match reqs with
  | [] => True
  | r :: reqs => fits db r ∧ all_fit (handle db r).1 reqs
  end.

(** Every stored name is well formed. *)
Definition names_inv (db : DB) : Prop :=
  ∀ k s, silos db !! k = Some s → name_ok s.

(** Every operation is a load or an unload, and the balance of every
    silo is the one that its operations add up to. *)
Definition ledger_inv (db : DB) : Prop :=
  (∀ j o, operations db !! j = Some o →
          Operation.type o = "CARGA" ∨ Operation.type o = "DESCARGA")
  ∧ (∀ k s, silos db !! k = Some s → Silo.balance_kg s = ledger_balance db k).

(** * Lemmas *)

(** ** Store lemmas *)

Lemma next_id_bound {A} (m : gmap Z A) k :
  is_Some (m !! k) → 0 < next_id m ∧ k < next_id m.
Proof.
  unfold next_id.
  cut (0 ≤ map_fold (λ k (_ : A) acc, k `max` acc) 0 m
       ∧ ∀ k, is_Some (m !! k) → k ≤ map_fold (λ k (_ : A) acc, k `max` acc) 0 m).
  { intros [H0 Hk] Hs. specialize (Hk k Hs). lia. }
  apply (map_fold_weak_ind
           (λ r (m : gmap Z A), 0 ≤ r ∧ ∀ k, is_Some (m !! k) → k ≤ r)).
  - split; [lia|]. intros j [x Hx]. by rewrite lookup_empty in Hx.
  - intros i x m' r Hi [H0 IH]. split; [lia|].
    intros j Hj. destruct (decide (i = j)) as [->|Hne]; [lia|].
    rewrite lookup_insert_ne in Hj by done.
    specialize (IH j Hj). lia.
Qed.

Lemma next_id_pos {A} (m : gmap Z A) : 0 < next_id m.
Proof.
  unfold next_id.
  cut (0 ≤ map_fold (λ k (_ : A) acc, k `max` acc) 0 m); [lia|].
  apply (map_fold_weak_ind (λ r (_ : gmap Z A), 0 ≤ r)); intros; lia.
Qed.

Lemma next_id_fresh {A} (m : gmap Z A) : m !! next_id m = None.
Proof.
  destruct (m !! next_id m) as [x|] eqn:E; [|done].
  destruct (next_id_bound m (next_id m)) as [_ ?]; [by eexists|lia].
Qed.

Lemma name_taken_spec tbl k n :
  name_taken tbl k n ↔ ∃ k' s', tbl !! k' = Some s' ∧ k' ≠ k ∧ Silo.name s' = n.
Proof. unfold name_taken. rewrite map_Exists_lookup. naive_solver. Qed.

Lemma write_silo_Some db k row db' :
  write_silo db k row = Some db' ↔
    Silo.balance_non_negative row ∧ ¬ name_taken (silos db) k (Silo.name row)
    ∧ db' = mkDB (<[k := row]> (silos db)) (operations db).
Proof.
  unfold write_silo. case_decide as H; split.
  - intros [= <-]. by destruct H.
  - by intros (_ & _ & ->).
  - done.
  - intros (? & ? & _). by destruct H.
Qed.

Lemma write_silo_None db k row :
  write_silo db k row = None ↔
    ¬ Silo.balance_non_negative row ∨ name_taken (silos db) k (Silo.name row).
Proof.
  unfold write_silo. case_decide as H; split; try done.
  - destruct H as [Hb Hn]. by intros [?|?].
  - intros _. destruct (decide (Silo.balance_non_negative row)); [|by left].
    right. destruct (decide (name_taken (silos db) k (Silo.name row))); [done|].
    by destruct H.
Qed.

(** ** The invariant holds of the empty store and of each write *)

Lemma db_inv_empty : db_inv empty_db.
Proof. split; simpl; intros *; by rewrite lookup_empty. Qed.

Lemma db_inv_not_taken db k s :
  db_inv db → silos db !! k = Some s → ¬ name_taken (silos db) k (Silo.name s).
Proof.
  intros Hinv Hk (k' & s' & Hk' & Hne & Hn)%name_taken_spec.
  apply Hne. eapply inv_unique; eauto.
Qed.

(** UPDATE of an existing row that keeps the constraints. *)
Lemma db_inv_update db k s s' :
  db_inv db → silos db !! k = Some s → silo_ok s' →
  ¬ name_taken (silos db) k (Silo.name s') →
  db_inv (mkDB (<[k := s']> (silos db)) (operations db)).
Proof.
  intros Hinv Hk Hok Hfree. split; simpl.
  - intros j t. rewrite lookup_insert. case_decide; [naive_solver|].
    apply Hinv.
  - intros j t. rewrite lookup_insert. case_decide; subst.
    + intros _. eapply inv_key; eauto.
    + apply Hinv.
  - intros k1 k2 s1 s2 H1 H2 Hn.
    destruct (decide (k1 = k2)) as [|Hne]; [done|]. exfalso.
    rewrite lookup_insert in H1. rewrite lookup_insert in H2.
    destruct (decide (k = k1)) as [E1|E1], (decide (k = k2)) as [E2|E2].
    + congruence.
    + injection H1 as <-. apply Hfree, name_taken_spec. exists k2, s2. eauto.
    + injection H2 as <-. apply Hfree, name_taken_spec. exists k1, s1. eauto.
    + apply Hne. eapply inv_unique; eauto.
  - intros j o Ho. destruct (inv_op _ Hinv _ _ Ho) as [Hs Ha]. split; [|done].
    rewrite lookup_insert. case_decide; [by eexists|done].
Qed.

(** INSERT of a row into [silos] under a new key. *)
Lemma db_inv_insert db s :
  db_inv db → silo_ok s →
  ¬ name_taken (silos db) (next_id (silos db)) (Silo.name s) →
  db_inv (mkDB (<[next_id (silos db) := s]> (silos db)) (operations db)).
Proof.
  intros Hinv Hok Hfree.
  pose proof (next_id_fresh (silos db)) as Hnew.
  split; simpl.
  - intros j t. rewrite lookup_insert. case_decide; [naive_solver|].
    apply Hinv.
  - intros j t. rewrite lookup_insert. case_decide; subst.
    + intros _. apply next_id_pos.
    + apply Hinv.
  - intros k1 k2 s1 s2 H1 H2 Hn.
    destruct (decide (k1 = k2)) as [|Hne]; [done|]. exfalso.
    rewrite lookup_insert in H1. rewrite lookup_insert in H2.
    destruct (decide (next_id (silos db) = k1)) as [E1|E1], (decide (next_id (silos db) = k2)) as [E2|E2].
    + congruence.
    + injection H1 as <-. apply Hfree, name_taken_spec. exists k2, s2. eauto.
    + injection H2 as <-. apply Hfree, name_taken_spec. exists k1, s1. eauto.
    + apply Hne. eapply inv_unique; eauto.
  - intros j o Ho. destruct (inv_op _ Hinv _ _ Ho) as [Hs Ha]. split; [|done].
    rewrite lookup_insert. case_decide; [by eexists|done].
Qed.

Lemma db_inv_add_operation db op :
  db_inv db → is_Some (silos db !! Operation.silo_id op) →
  0 < Operation.amount op → db_inv (add_operation db op).
Proof.
  intros Hinv Hs Ha. split; simpl; try apply Hinv.
  intros j o. rewrite lookup_insert. case_decide; [naive_solver|].
  apply Hinv.
Qed.

Lemma db_inv_delete_cascade db k :
  db_inv db → db_inv (delete_cascade db k).
Proof.
  intros Hinv. split; simpl.
  - intros j t [_ ?]%lookup_delete_Some. eapply inv_silo; eauto.
  - intros j t [_ ?]%lookup_delete_Some. eapply inv_key; eauto.
  - intros k1 k2 s1 s2 [_ ?]%lookup_delete_Some [_ ?]%lookup_delete_Some.
    eapply inv_unique; eauto.
  - intros j o [Ho Hne]%map_lookup_filter_Some. simpl in Hne.
    destruct (inv_op _ Hinv _ _ Ho) as [Hs Ha]. split; [|done].
    by rewrite lookup_delete_ne.
Qed.

(** ** Case analysis of the handlers *)

Lemma cargar_cases db silo_id body now :
  let amount := default 0 (j_amount body) in
  (cargar db silo_id body now).1 = db ∧ failed (cargar db silo_id body now).2
  ∨ ∃ s, silos db !! silo_id = Some s ∧ 0 < amount
      ∧ (Silo.cereal s = None → Silo.balance_kg s = 0 →
           allowed (j_cereal body) = true)
      ∧ Silo.balance_non_negative (loaded s amount (j_cereal body))
      ∧ cargar db silo_id body now =
          (committed db silo_id (loaded s amount (j_cereal body))
                     (Operation.mk silo_id "CARGA" amount now),
           Response (Carga "Carga registrada."
                       (Silo.balance_kg (loaded s amount (j_cereal body)))
                       (Silo.cereal (loaded s amount (j_cereal body))), 200)).
Proof.
  intros amount. unfold cargar. fold amount.
  case_bool_decide as Ha; [left; by simpl|].
  destruct (silos db !! silo_id) as [s|] eqn:Hs; [|left; by simpl].
  set (fresh := bool_decide (Silo.balance_kg s = 0)
                && bool_decide (Silo.cereal s = None)).
  destruct (fresh && (negb (truthy (j_cereal body)) || negb (allowed (j_cereal body))))
    eqn:Hf; [left; by simpl|].
  match goal with |- context [if ?c then (db, Response (CerealMismatch _)) else _] =>
    destruct c eqn:Hm end; [left; by simpl|].
  fold (loaded s amount (j_cereal body)).
  destruct (write_silo db silo_id _) as [db'|] eqn:Hw; [|left; by simpl].
  apply write_silo_Some in Hw as (Hb & _ & ->).
  right. exists s. split_and!; [done|lia| |done|].
  - intros Hc Hz. subst fresh. rewrite Hc, Hz in Hf.
    rewrite !bool_decide_eq_true_2 in Hf by done. simpl in Hf.
    apply orb_false_iff in Hf as [_ Hf]. by apply negb_false_iff in Hf.
  - reflexivity.
Qed.

Lemma descargar_cases db silo_id body now :
  let amount := default 0 (j_amount body) in
  (descargar db silo_id body now).1 = db ∧ failed (descargar db silo_id body now).2
  ∨ ∃ s, silos db !! silo_id = Some s ∧ 0 < amount ∧ amount ≤ Silo.balance_kg s
      ∧ descargar db silo_id body now =
          (committed db silo_id (unloaded s amount)
                     (Operation.mk silo_id "DESCARGA" amount now),
           Response (Descarga "Descarga registrada."
                       (Silo.balance_kg (unloaded s amount)), 200)).
Proof.
  intros amount. unfold descargar. fold amount.
  case_bool_decide as Ha; [left; by simpl|].
  destruct (silos db !! silo_id) as [s|] eqn:Hs; [|left; by simpl].
  case_bool_decide as Hb; [left; by simpl|].
  fold (unloaded s amount).
  destruct (write_silo db silo_id _) as [db'|] eqn:Hw; [|left; by simpl].
  apply write_silo_Some in Hw as (_ & _ & ->).
  right. exists s. split_and!; try done; lia.
Qed.

Lemma loaded_name s a c : Silo.name (loaded s a c) = Silo.name s.
Proof. unfold loaded. by case_match. Qed.

Lemma loaded_created_at s a c : Silo.created_at (loaded s a c) = Silo.created_at s.
Proof. unfold loaded. by case_match. Qed.

Lemma loaded_balance_kg s a c : Silo.balance_kg (loaded s a c) = Silo.balance_kg s + a.
Proof. unfold loaded. by case_match. Qed.

Lemma loaded_cereal s a c :
  Silo.cereal (loaded s a c) =
    if bool_decide (Silo.balance_kg s = 0) && bool_decide (Silo.cereal s = None)
    then c else Silo.cereal s.
Proof. unfold loaded. by case_match. Qed.

Lemma allowed_true c :
  allowed c = true → ∃ x, c = Some x ∧ x ∈ ALLOWED_CEREALES.
Proof.
  destruct c as [x|]; simpl; [|done].
  intros H%bool_decide_eq_true. eauto.
Qed.

Lemma allowed_nonempty x : x ∈ ALLOWED_CEREALES → x ≠ "".
Proof. intros H ->. revert H. by vm_compute. Qed.

(** ** Every handler keeps the invariant *)

Lemma silo_ok_loaded s a c :
  silo_ok s → 0 < a →
  (Silo.cereal s = None → Silo.balance_kg s = 0 → allowed c = true) →
  silo_ok (loaded s a c).
Proof.
  intros (Hb & Hn & Hc) Ha Hal. unfold silo_ok.
  rewrite loaded_balance_kg, loaded_cereal.
  split; [lia|].
  destruct (Silo.cereal s) as [c0|] eqn:E.
  - rewrite (bool_decide_eq_false_2 (Some c0 = None)) by done.
    rewrite andb_false_r. split; [done|]. intros c1 [= <-]. by apply Hc.
  - rewrite (Hn eq_refl). rewrite !bool_decide_eq_true_2 by done. simpl.
    destruct (allowed_true c) as (x & -> & Hx); [by apply Hal; auto|].
    split; [done|]. by intros c1 [= <-].
Qed.

Lemma silo_ok_unloaded s a :
  silo_ok s → a ≤ Silo.balance_kg s → 0 < a → silo_ok (unloaded s a).
Proof.
  intros (Hb & Hn & Hc) Hle Ha. unfold silo_ok, unloaded. simpl.
  split; [lia|]. split; [|done].
  intros E. specialize (Hn E). lia.
Qed.

Lemma db_inv_committed db k s row op :
  db_inv db → silos db !! k = Some s → silo_ok row →
  Silo.name row = Silo.name s →
  Operation.silo_id op = k → 0 < Operation.amount op →
  db_inv (committed db k row op).
Proof.
  intros Hinv Hk Hok Hn Hop Ha.
  change (committed db k row op)
    with (add_operation (mkDB (<[k := row]> (silos db)) (operations db)) op).
  apply db_inv_add_operation; [|simpl|done].
  - eapply db_inv_update; eauto. rewrite Hn. by apply db_inv_not_taken.
  - rewrite Hop, lookup_insert_eq. by eexists.
Qed.

Lemma create_silo_inv db body now :
  db_inv db → db_inv (create_silo db body now).1.
Proof.
  intros Hinv. unfold create_silo.
  case_bool_decide; [done|].
  destruct (write_silo _ _ _) as [db'|] eqn:Hw; [|done].
  apply write_silo_Some in Hw as (_ & Hfree & ->). simpl.
  apply db_inv_insert; [done| |done].
  split_and!; simpl; [lia|done|done].
Qed.

Lemma rename_silo_inv db silo_id body :
  db_inv db → db_inv (rename_silo db silo_id body).1.
Proof.
  intros Hinv. unfold rename_silo.
  case_bool_decide; [done|].
  destruct (silos db !! silo_id) as [s|] eqn:Hs; [|done].
  destruct (write_silo _ _ _) as [db'|] eqn:Hw; [|done].
  apply write_silo_Some in Hw as (_ & Hfree & ->). simpl.
  eapply db_inv_update; eauto.
  exact (inv_silo _ Hinv _ _ Hs).
Qed.

Lemma delete_silo_inv db silo_id :
  db_inv db → db_inv (delete_silo db silo_id).1.
Proof.
  intros Hinv. unfold delete_silo.
  destruct (silos db !! silo_id); [|done].
  by apply db_inv_delete_cascade.
Qed.

Lemma cargar_inv db silo_id body now :
  db_inv db → db_inv (cargar db silo_id body now).1.
Proof.
  intros Hinv.
  destruct (cargar_cases db silo_id body now)
    as [[-> _]|(s & Hs & Ha & Hal & _ & ->)]; [done|]. simpl.
  eapply db_inv_committed; eauto using loaded_name.
  apply silo_ok_loaded; [|done|done]. exact (inv_silo _ Hinv _ _ Hs).
Qed.

Lemma descargar_inv db silo_id body now :
  db_inv db → db_inv (descargar db silo_id body now).1.
Proof.
  intros Hinv.
  destruct (descargar_cases db silo_id body now)
    as [[-> _]|(s & Hs & Ha & Hle & ->)]; [done|]. simpl.
  eapply db_inv_committed; eauto.
  apply silo_ok_unloaded; [|done|done]. exact (inv_silo _ Hinv _ _ Hs).
Qed.

Lemma handle_inv db r : db_inv db → db_inv (handle db r).1.
Proof.
  destruct r; simpl;
    auto using create_silo_inv, rename_silo_inv, delete_silo_inv,
               cargar_inv, descargar_inv.
Qed.

Lemma run_snoc reqs r db : run (reqs ++ [r]) db = (handle (run reqs db) r).1.
Proof. unfold run. by rewrite foldl_app. Qed.

Lemma run_inv reqs db : db_inv db → db_inv (run reqs db).
Proof.
  revert db. induction reqs as [|r reqs IH]; intros db Hinv; [done|].
  simpl. apply IH. by apply handle_inv.
Qed.

Lemma reachable_inv reqs : db_inv (run reqs empty_db).
Proof. apply run_inv, db_inv_empty. Qed.

(** ** Error paths of load and unload *)

Lemma cargar_amount db silo_id body now :
  default 0 (j_amount body) ≤ 0 →
  cargar db silo_id body now = (db, Response InvalidInput_amount).
Proof. intros Ha. unfold cargar. by rewrite bool_decide_eq_true_2. Qed.

Lemma cargar_not_found db silo_id body now :
  0 < default 0 (j_amount body) → silos db !! silo_id = None →
  cargar db silo_id body now = (db, Response NotFound).
Proof.
  intros Ha Hs. unfold cargar.
  rewrite bool_decide_eq_false_2 by lia. by rewrite Hs.
Qed.

(** Step 3 of the load rule: the silo is empty and has no cereal, and the
    request brings no cereal or one outside [ALLOWED_CEREALES]. *)
Lemma cargar_fresh_invalid db silo_id s body now :
  0 < default 0 (j_amount body) → silos db !! silo_id = Some s →
  Silo.balance_kg s = 0 → Silo.cereal s = None →
  allowed (j_cereal body) = false →
  cargar db silo_id body now = (db, Response InvalidInput_cereal).
Proof.
  intros Ha Hs Hz Hc Hal. unfold cargar.
  rewrite bool_decide_eq_false_2 by lia. rewrite Hs.
  rewrite !bool_decide_eq_true_2 by done.
  rewrite Hal. simpl. by rewrite orb_true_r.
Qed.

(** Step 4 of the load rule: the silo has a cereal and the request brings
    another one. *)
Lemma cargar_mismatch db silo_id s c body c' now :
  0 < default 0 (j_amount body) → silos db !! silo_id = Some s →
  Silo.cereal s = Some c → c ≠ "" →
  j_cereal body = Some c' → c' ≠ "" → c' ≠ c →
  cargar db silo_id body now = (db, Response (CerealMismatch c)).
Proof.
  intros Ha Hs Hc Hne Hc' Hne' Hdiff. unfold cargar.
  rewrite bool_decide_eq_false_2 by lia. rewrite Hs, Hc, Hc'.
  rewrite (bool_decide_eq_false_2 (Some c = None)) by done.
  rewrite andb_false_r. simpl. rewrite Hc. simpl.
  rewrite !(bool_decide_eq_false_2 (_ = "")) by done.
  rewrite (bool_decide_eq_false_2 (Some c' = Some c)) by congruence.
  done.
Qed.

Lemma descargar_amount db silo_id body now :
  default 0 (j_amount body) ≤ 0 →
  descargar db silo_id body now = (db, Response InvalidInput_amount).
Proof. intros Ha. unfold descargar. by rewrite bool_decide_eq_true_2. Qed.

Lemma descargar_not_found db silo_id body now :
  0 < default 0 (j_amount body) → silos db !! silo_id = None →
  descargar db silo_id body now = (db, Response NotFound).
Proof.
  intros Ha Hs. unfold descargar.
  rewrite bool_decide_eq_false_2 by lia. by rewrite Hs.
Qed.

Lemma descargar_insufficient db silo_id s body now :
  0 < default 0 (j_amount body) → silos db !! silo_id = Some s →
  Silo.balance_kg s < default 0 (j_amount body) →
  descargar db silo_id body now = (db, Response InsufficientStock).
Proof.
  intros Ha Hs Hlt. unfold descargar.
  rewrite bool_decide_eq_false_2 by lia. rewrite Hs.
  by rewrite bool_decide_eq_true_2 by lia.
Qed.

(** In a store that satisfies the invariant the guards of [cargar] and
    [descargar] are enough: the constraints of the tables never reject
    the commit, so neither handler raises. *)
Lemma cargar_never_raises db silo_id body now e :
  db_inv db → (cargar db silo_id body now).2 ≠ Raised e.
Proof.
  intros Hinv. unfold cargar.
  case_bool_decide as Ha; [done|].
  destruct (silos db !! silo_id) as [s|] eqn:Hs; [|done].
  destruct (_ && (_ || _)); [done|].
  destruct (_ && _ && _); [done|].
  fold (loaded s (default 0 (j_amount body)) (j_cereal body)).
  destruct (write_silo db silo_id _) as [db'|] eqn:Hw; [done|].
  exfalso. apply write_silo_None in Hw as [Hb|Ht].
  - apply Hb. unfold Silo.balance_non_negative. rewrite loaded_balance_kg.
    destruct (inv_silo _ Hinv _ _ Hs) as (? & _). lia.
  - rewrite loaded_name in Ht. by apply (db_inv_not_taken _ _ _ Hinv Hs).
Qed.

Lemma descargar_never_raises db silo_id body now e :
  db_inv db → (descargar db silo_id body now).2 ≠ Raised e.
Proof.
  intros Hinv. unfold descargar.
  case_bool_decide as Ha; [done|].
  destruct (silos db !! silo_id) as [s|] eqn:Hs; [|done].
  case_bool_decide as Hlt; [done|].
  destruct (write_silo db silo_id _) as [db'|] eqn:Hw; [done|].
  exfalso. apply write_silo_None in Hw as [Hb|Ht].
  - apply Hb. unfold Silo.balance_non_negative. simpl. lia.
  - by apply (db_inv_not_taken _ _ _ Hinv Hs).
Qed.

(** ** The cereal of a silo is never cleared *)

Lemma handle_keeps_cereal db r k s c :
  silos db !! k = Some s → Silo.cereal s = Some c → r ≠ DELETE_silo k →
  ∃ s', silos (handle db r).1 !! k = Some s' ∧ Silo.cereal s' = Some c.
Proof.
  intros Hk Hc Hr. destruct r as [body now|j body|j|j body now|j body now|]; simpl.
  - unfold create_silo. case_bool_decide; [eauto|].
    destruct (write_silo _ _ _) as [db'|] eqn:Hw; [|eauto].
    apply write_silo_Some in Hw as (_ & _ & ->). simpl.
    exists s. split; [|done]. rewrite lookup_insert_ne; [done|].
    intros E. pose proof (next_id_fresh (silos db)) as Hf. congruence.
  - unfold rename_silo. case_bool_decide; [eauto|].
    destruct (silos db !! j) as [t|] eqn:Hj; [|eauto].
    destruct (write_silo _ _ _) as [db'|] eqn:Hw; [|eauto].
    apply write_silo_Some in Hw as (_ & _ & ->). simpl.
    destruct (decide (j = k)) as [->|Hne].
    + rewrite lookup_insert_eq. eexists; split; [done|]. simpl. congruence.
    + rewrite lookup_insert_ne by done. eauto.
  - unfold delete_silo. destruct (silos db !! j); [|eauto]. simpl.
    rewrite lookup_delete_ne by congruence. eauto.
  - destruct (cargar_cases db j body now)
      as [[-> _]|(t & Ht & _ & _ & _ & ->)]; [eauto|]. simpl.
    destruct (decide (j = k)) as [->|Hne].
    + rewrite lookup_insert_eq. eexists; split; [done|].
      rewrite loaded_cereal. replace t with s by congruence. rewrite Hc.
      rewrite (bool_decide_eq_false_2 (Some c = None)) by done.
      by rewrite andb_false_r.
    + rewrite lookup_insert_ne by done. eauto.
  - destruct (descargar_cases db j body now)
      as [[-> _]|(t & Ht & _ & _ & ->)]; [eauto|]. simpl.
    destruct (decide (j = k)) as [->|Hne].
    + rewrite lookup_insert_eq. eexists; split; [done|]. simpl. congruence.
    + rewrite lookup_insert_ne by done. eauto.
  - eauto.
Qed.

Lemma run_keeps_cereal reqs db k s c :
  silos db !! k = Some s → Silo.cereal s = Some c →
  Forall (λ r, r ≠ DELETE_silo k) reqs →
  ∃ s', silos (run reqs db) !! k = Some s' ∧ Silo.cereal s' = Some c.
Proof.
  revert db s. induction reqs as [|r reqs IH]; intros db s Hk Hc Hall.
  - simpl. eauto.
  - apply Forall_cons in Hall as [Hr Hall]. simpl.
    destruct (handle_keeps_cereal db r k s c Hk Hc Hr) as (s' & Hk' & Hc').
    eapply IH; eauto.
Qed.

(** ** The summary *)

Global Instance resumen_order_total : Total resumen_order.
Proof. intros a b. unfold resumen_order. lia. Qed.

Global Instance resumen_order_trans : Transitive resumen_order.
Proof. intros a b c. unfold resumen_order. lia. Qed.

Lemma query_operations_perm db :
  query_operations db ≡ₚ map_to_list (operations db).
Proof. apply merge_sort_Permutation. Qed.

Lemma query_operations_sorted db :
  StronglySorted resumen_order (query_operations db).
Proof. apply StronglySorted_merge_sort; apply _. Qed.

Lemma query_operations_NoDup db : NoDup (query_operations db).*1.
Proof.
  rewrite query_operations_perm. apply NoDup_fst_map_to_list.
Qed.

Lemma elem_of_query_operations db o :
  o ∈ query_operations db ↔ operations db !! o.1 = Some o.2.
Proof. rewrite query_operations_perm. apply elem_of_map_to_list'. Qed.

Lemma resumen_entry_present db o s :
  silos db !! Operation.silo_id o.2 = Some s → Operation.silo_id o.2 ≠ 0 →
  resumen_entry db o = Some (entry_of db o).
Proof.
  intros Hs Hne. unfold resumen_entry, entry_of.
  rewrite bool_decide_eq_true_2 by done. by rewrite Hs.
Qed.

(** A dangling [silo_id] other than 0 makes the row raise. *)
Lemma resumen_entry_dangling db o :
  silos db !! Operation.silo_id o.2 = None → Operation.silo_id o.2 ≠ 0 →
  resumen_entry db o = None.
Proof.
  intros Hs Hne. unfold resumen_entry.
  rewrite bool_decide_eq_true_2 by done. by rewrite Hs.
Qed.

Lemma mapM_resumen_entry db l :
  Forall (λ o, is_Some (silos db !! Operation.silo_id o.2)
               ∧ Operation.silo_id o.2 ≠ 0) l →
  mapM (resumen_entry db) l = Some (entry_of db <$> l).
Proof.
  induction 1 as [|o l [[s Hs] Hne] _ IH]; [done|].
  simpl. rewrite (resumen_entry_present db o s Hs Hne). simpl.
  by rewrite IH.
Qed.

Lemma db_inv_operations db :
  db_inv db →
  Forall (λ o, is_Some (silos db !! Operation.silo_id o.2)
               ∧ Operation.silo_id o.2 ≠ 0) (query_operations db).
Proof.
  intros Hinv. apply Forall_forall. intros o Ho%elem_of_query_operations.
  destruct (inv_op _ Hinv _ _ Ho) as [[s Hs] _]. split; [by eexists|].
  pose proof (inv_key _ Hinv _ _ Hs). lia.
Qed.

(** In a store that satisfies the invariant the summary is returned, and
    it is the list of the rows of the operations in query order. *)
Lemma resumen_returns db :
  db_inv db →
  resumen db = Response (Resumen (entry_of db <$> query_operations db), 200).
Proof.
  intros Hinv. unfold resumen.
  by rewrite (mapM_resumen_entry db _ (db_inv_operations db Hinv)).
Qed.

Lemma StronglySorted_strict (l : list (Z * Operation.t)) :
  StronglySorted resumen_order l → NoDup l.*1 →
  StronglySorted (λ a b, resumen_order a b ∧ a.1 ≠ b.1) l.
Proof.
  induction 1 as [|a l Hl IH Hall]; intros Hnd; [constructor|].
  apply NoDup_cons in Hnd as [Hnotin Hnd]. constructor; [by apply IH|].
  apply Forall_forall. intros b Hb. split.
  - by eapply Forall_forall in Hall.
  - intros E. apply Hnotin. rewrite E. apply list_elem_of_fmap. eauto.
Qed.

Lemma summary_sorted db l :
  StronglySorted resumen_order l → NoDup l.*1 →
  StronglySorted summary_order (entry_of db <$> l).
Proof.
  intros Hs Hnd.
  apply (StronglySorted_fmap (entry_of db) (λ a b, resumen_order a b ∧ a.1 ≠ b.1)).
  - intros a b [Hab Hne]. unfold summary_order, resumen_order in *. simpl. lia.
  - by apply StronglySorted_strict.
Qed.

(** An operation whose [silo_id] is not 0 and is the key of no silo makes
    the whole summary raise. *)
Lemma resumen_dangling_raises db j o :
  operations db !! j = Some o → Operation.silo_id o ≠ 0 →
  silos db !! Operation.silo_id o = None →
  resumen db = Raised AttributeError.
Proof.
  intros Ho Hne Hs. unfold resumen.
  assert (mapM (resumen_entry db) (query_operations db) = None) as ->; [|done].
  apply mapM_None, Exists_exists. exists (j, o). split.
  - by apply elem_of_query_operations.
  - by apply resumen_entry_dangling.
Qed.

(** ** Delete *)

Lemma delete_silo_absent db k :
  silos db !! k = None → delete_silo db k = (db, Response NotFound).
Proof. intros Hk. unfold delete_silo. by rewrite Hk. Qed.

Lemma delete_silo_present db k s :
  silos db !! k = Some s →
  delete_silo db k
  = (delete_cascade db k, Response (Message "Silo eliminado.", 200)).
Proof. intros Hk. unfold delete_silo. by rewrite Hk. Qed.

(** ** Rename *)

Lemma rename_silo_empty db k body :
  strip (default "" (j_name body)) = "" →
  rename_silo db k body = (db, Response InvalidInput_new_name).
Proof. intros E. unfold rename_silo. by rewrite bool_decide_eq_true_2. Qed.

Lemma rename_silo_absent db k body :
  strip (default "" (j_name body)) ≠ "" → silos db !! k = None →
  rename_silo db k body = (db, Response NotFound).
Proof.
  intros E Hk. unfold rename_silo.
  rewrite bool_decide_eq_false_2 by done. by rewrite Hk.
Qed.

Lemma rename_silo_taken db k s body :
  strip (default "" (j_name body)) ≠ "" → silos db !! k = Some s →
  name_taken (silos db) k (strip (default "" (j_name body))) →
  rename_silo db k body = (db, Response DuplicateName).
Proof.
  intros E Hk Ht. unfold rename_silo.
  rewrite bool_decide_eq_false_2 by done. rewrite Hk.
  destruct (write_silo _ _ _) as [db'|] eqn:Hw; [|done].
  by apply write_silo_Some in Hw as (_ & Hfree & _).
Qed.

Lemma rename_silo_free db k s body :
  strip (default "" (j_name body)) ≠ "" → silos db !! k = Some s →
  Silo.balance_non_negative s →
  ¬ name_taken (silos db) k (strip (default "" (j_name body))) →
  rename_silo db k body
  = (mkDB (<[k := Silo.set_name (strip (default "" (j_name body))) s]> (silos db))
          (operations db),
     Response (Message "Nombre actualizado.", 200)).
Proof.
  intros E Hk Hb Hfree. unfold rename_silo.
  rewrite bool_decide_eq_false_2 by done. rewrite Hk.
  destruct (write_silo _ _ _) as [db'|] eqn:Hw.
  - by apply write_silo_Some in Hw as (_ & _ & ->).
  - exfalso. apply write_silo_None in Hw as [Hw|Hw]; [by apply Hw|by apply Hfree].
Qed.

(** * Properties *)

(** C1: after every sequence of create/rename/delete/load/unload requests
    every silo has [0 <= balance_kg]; and in such a store an unload of more
    than the balance is answered with the insufficient-stock error and the
    store is left as it was. *)
Theorem balance_never_negative (reqs : list request) :
  (∀ k s, silos (run reqs empty_db) !! k = Some s → 0 ≤ Silo.balance_kg s)
  ∧ (∀ k s body now,
       silos (run reqs empty_db) !! k = Some s →
       Silo.balance_kg s < default 0 (j_amount body) →
       descargar (run reqs empty_db) k body now
       = (run reqs empty_db, Response InsufficientStock)).
Proof.
  pose proof (reachable_inv reqs) as Hinv. split.
  - intros k s Hk. by destruct (inv_silo _ Hinv _ _ Hk) as (? & _).
  - intros k s body now Hk Hlt.
    destruct (inv_silo _ Hinv _ _ Hk) as (? & _).
    eapply descargar_insufficient; eauto. lia.
Qed.

Lemma balance_never_negative_witness :
  0 ≤ 20
  ∧ descargar (run scenario empty_db) 1 (body_amount 21) 70
    = (run scenario empty_db, Response InsufficientStock).
Proof.
  destruct (balance_never_negative scenario) as [H1 H2]. split.
  - apply (H1 1 (Silo.mk "A" (Some "Soja") 20 10)). reflexivity.
  - apply (H2 1 (Silo.mk "A" (Some "Soja") 20 10)); [reflexivity|].
    simpl. lia.
Defined.

(** C2: once a silo has a cereal, and whatever requests follow that do
    not delete it, a load with a positive amount that brings another
    non-empty cereal is answered with the cereal-mismatch error and the
    store is left as it was; the balance of the silo plays no part. *)
Theorem cereal_lock db k s c reqs body c' now :
  silos db !! k = Some s → Silo.cereal s = Some c → c ≠ "" →
  Forall (λ r, r ≠ DELETE_silo k) reqs →
  0 < default 0 (j_amount body) →
  j_cereal body = Some c' → c' ≠ "" → c' ≠ c →
  cargar (run reqs db) k body now
  = (run reqs db, Response (CerealMismatch c)).
Proof.
  intros Hk Hc Hne Hall Ha Hc' Hne' Hdiff.
  destruct (run_keeps_cereal reqs db k s c Hk Hc Hall) as (s' & Hk' & Hcs').
  eapply cargar_mismatch; eauto.
Qed.

Lemma cereal_lock_witness :
  cargar (run [POST_descargar 1 (body_amount 100) 40] db_soja) 1
         (body_load 20 "Maiz") 50
  = (run [POST_descargar 1 (body_amount 100) 40] db_soja,
     Response (CerealMismatch "Soja")).
Proof.
  apply (cereal_lock db_soja 1 (Silo.mk "A" (Some "Soja") 100 10) "Soja"
           [POST_descargar 1 (body_amount 100) 40] (body_load 20 "Maiz") "Maiz").
  - reflexivity.
  - reflexivity.
  - discriminate.
  - repeat constructor. discriminate.
  - simpl. lia.
  - reflexivity.
  - discriminate.
  - discriminate.
Defined.

(** C3 does not hold of the code: on [db_dangling] the name of the missing
    silo would be reported as null ([o.silo] is [None]), but the balance
    is read from [db.query(Silo).get(o.silo_id)], which is [None], and
    the summary raises instead of being returned. *)
Theorem summary_raises_on_missing_silo :
  Silo.name <$> silos db_dangling !! 7 = None
  ∧ resumen db_dangling = Raised AttributeError.
Proof. split; reflexivity. Qed.

(** C4, as stated, fails: silo 1 of [db_soja] has a cereal, so the check
    against [ALLOWED_CEREALES] is skipped and a load that brings the
    value Arroz, which is not allowed, is answered with the
    cereal-mismatch error, which is none of the invalid-input responses. *)
Lemma invalid_cereal_on_locked_silo :
  ("Arroz" ∉ ALLOWED_CEREALES)
  ∧ cargar db_soja 1 (body_load 50 "Arroz") 30
    = (db_soja, Response (CerealMismatch "Soja"))
  ∧ ¬ is_InvalidInput (CerealMismatch "Soja").
Proof.
  split_and!.
  - by vm_compute.
  - reflexivity.
  - unfold is_InvalidInput. intros [H|[H|[H|H]]]; discriminate H.
Qed.

(** C4, amended: in a store reached by a sequence of requests, a load
    with a positive amount into an existing silo
    - is answered with the invalid-input error when the silo is empty and
      has no cereal and the request brings no cereal, an empty one, or
      one outside [ALLOWED_CEREALES];
    - is answered with the invalid-input error or, when the silo already
      has a cereal, with the cereal-mismatch error, when the request
      brings a non-empty cereal outside [ALLOWED_CEREALES];
    and in each case the store is left as it was. *)
Theorem invalid_cereal_rejected (reqs : list request) k s body now :
  silos (run reqs empty_db) !! k = Some s →
  0 < default 0 (j_amount body) →
  (Silo.balance_kg s = 0 → Silo.cereal s = None →
   allowed (j_cereal body) = false →
   cargar (run reqs empty_db) k body now
   = (run reqs empty_db, Response InvalidInput_cereal))
  ∧ (∀ x, j_cereal body = Some x → x ≠ "" → x ∉ ALLOWED_CEREALES →
       (Silo.balance_kg s = 0 ∧ Silo.cereal s = None
        ∧ cargar (run reqs empty_db) k body now
          = (run reqs empty_db, Response InvalidInput_cereal))
       ∨ (∃ c, Silo.cereal s = Some c
          ∧ cargar (run reqs empty_db) k body now
            = (run reqs empty_db, Response (CerealMismatch c)))).
Proof.
  intros Hk Ha. split.
  - intros Hz Hc Hal. eapply cargar_fresh_invalid; eauto.
  - intros x Hx Hne Hout.
    destruct (inv_silo _ (reachable_inv reqs) _ _ Hk) as (_ & Hn & Hc).
    destruct (Silo.cereal s) as [c|] eqn:E.
    + right. exists c. split; [done|].
      eapply cargar_mismatch; eauto.
      * apply allowed_nonempty. by apply Hc.
      * intros ->. apply Hout. by apply Hc.
    + left. split_and!; [by apply Hn|done|].
      eapply cargar_fresh_invalid; eauto.
      rewrite Hx. simpl. by apply bool_decide_eq_false_2.
Qed.

Lemma invalid_cereal_rejected_witness :
  (cargar db_two 2 (body_amount 5) 40 = (db_two, Response InvalidInput_cereal))
  ∧ ((0 = 0 ∧ @None string = None
      ∧ cargar db_two 2 (body_load 5 "Arroz") 40
        = (db_two, Response InvalidInput_cereal))
     ∨ (∃ c, @None string = Some c
        ∧ cargar db_two 2 (body_load 5 "Arroz") 40
          = (db_two, Response (CerealMismatch c)))).
Proof.
  split.
  - destruct (invalid_cereal_rejected
                [ POST_silos (body_name "A") 10;
                  POST_cargar 1 (body_load 100 "Soja") 20;
                  POST_silos (body_name "B") 30 ]
                2 (Silo.mk "B" None 0 30) (body_amount 5) 40) as [H _];
      [reflexivity|simpl; lia|].
    apply H; reflexivity.
  - destruct (invalid_cereal_rejected
                [ POST_silos (body_name "A") 10;
                  POST_cargar 1 (body_load 100 "Soja") 20;
                  POST_silos (body_name "B") 30 ]
                2 (Silo.mk "B" None 0 30) (body_load 5 "Arroz") 40) as [_ H];
      [reflexivity|simpl; lia|].
    apply (H "Arroz"); [reflexivity|discriminate|by vm_compute].
Defined.

(** An empty-string cereal counts as no cereal: on silo 1 of [db_soja],
    which holds Soja, the load goes through. *)
Example empty_cereal_on_locked_silo :
  (cargar db_soja 1 (body_load 50 "") 30).2
  = Response (Carga "Carga registrada." 150 (Some "Soja"), 200).
Proof. reflexivity. Qed.

(** C5: an unload with a non-positive amount is answered with the
    invalid-input error whether or not the silo exists; with a positive
    amount and the id, within [int64], of no silo, with the not-found
    error; with an amount
    above the balance of the silo (a row that satisfies the check
    constraint of the table), with the insufficient-stock error.  In each
    case the store, balances and operations alike, is left as it was. *)
Theorem unload_errors db k body now :
  (default 0 (j_amount body) ≤ 0 →
   descargar db k body now = (db, Response InvalidInput_amount))
  ∧ (0 < default 0 (j_amount body) → int64 k → silos db !! k = None →
     descargar db k body now = (db, Response NotFound))
  ∧ (∀ s, silos db !! k = Some s → Silo.balance_non_negative s →
     Silo.balance_kg s < default 0 (j_amount body) →
     descargar db k body now = (db, Response InsufficientStock)).
Proof.
  split_and!.
  - apply descargar_amount.
  - intros Ha _. by apply descargar_not_found.
  - intros s Hk Hb Hlt. unfold Silo.balance_non_negative in Hb.
    eapply descargar_insufficient; eauto. lia.
Qed.

Lemma unload_errors_witness :
  descargar db_two 9 (body_amount 0) 40 = (db_two, Response InvalidInput_amount)
  ∧ descargar db_two 9 (body_amount 5) 40 = (db_two, Response NotFound)
  ∧ descargar db_two 1 (body_amount 101) 40 = (db_two, Response InsufficientStock)
  ∧ descargar db_two 2 (body_amount 10) 40 = (db_two, Response InsufficientStock).
Proof.
  split_and!.
  - apply (unload_errors db_two 9 (body_amount 0) 40). simpl. lia.
  - apply (unload_errors db_two 9 (body_amount 5) 40);
      [simpl; lia|unfold int64; lia|reflexivity].
  - apply (unload_errors db_two 1 (body_amount 101) 40)
      with (s := Silo.mk "A" (Some "Soja") 100 10);
      [reflexivity|unfold Silo.balance_non_negative; simpl; lia|simpl; lia].
  - apply (unload_errors db_two 2 (body_amount 10) 40)
      with (s := Silo.mk "B" None 0 30);
      [reflexivity|unfold Silo.balance_non_negative; simpl; lia|simpl; lia].
Defined.

(** C6: a load or unload either fails, and then the store (silos and
    operations) is exactly the one before the call, or succeeds, and then
    the new store is the old one with the balance of that silo moved by
    the amount and one operation, of the type and amount of the call,
    inserted under a key that was not in use. *)
Theorem load_unload_atomic db k body now :
  let amount := default 0 (j_amount body) in
  operations db !! next_id (operations db) = None
  ∧ ((cargar db k body now).1 = db ∧ failed (cargar db k body now).2
     ∨ ∃ s row,
         silos db !! k = Some s
         ∧ Silo.balance_kg row = Silo.balance_kg s + amount
         ∧ Silo.name row = Silo.name s
         ∧ Silo.created_at row = Silo.created_at s
         ∧ cargar db k body now
           = (mkDB (<[k := row]> (silos db))
                   (<[next_id (operations db)
                      := Operation.mk k "CARGA" amount now]> (operations db)),
              Response (Carga "Carga registrada." (Silo.balance_kg row)
                              (Silo.cereal row), 200)))
  ∧ ((descargar db k body now).1 = db ∧ failed (descargar db k body now).2
     ∨ ∃ s row,
         silos db !! k = Some s
         ∧ Silo.balance_kg row = Silo.balance_kg s - amount
         ∧ Silo.name row = Silo.name s
         ∧ Silo.cereal row = Silo.cereal s
         ∧ Silo.created_at row = Silo.created_at s
         ∧ descargar db k body now
           = (mkDB (<[k := row]> (silos db))
                   (<[next_id (operations db)
                      := Operation.mk k "DESCARGA" amount now]> (operations db)),
              Response (Descarga "Descarga registrada." (Silo.balance_kg row), 200))).
Proof.
  intros amount. split_and!.
  - apply next_id_fresh.
  - destruct (cargar_cases db k body now)
      as [?|(s & Hs & _ & _ & _ & E)]; [by left|].
    right. exists s, (loaded s amount (j_cereal body)).
    split_and!; [done|apply loaded_balance_kg|apply loaded_name
                |apply loaded_created_at|exact E].
  - destruct (descargar_cases db k body now)
      as [?|(s & Hs & _ & _ & E)]; [by left|].
    right. exists s, (unloaded s amount).
    split_and!; [done|done|done|done|done|exact E].
Qed.

(** C7: in a store reached by a sequence of requests the summary is
    returned; it has one row for each operation of the store; the rows
    are in descending order of creation instant and, for equal instants,
    of [id]; and each row carries the fields of its operation together
    with the name and the balance that the silo of the operation has in
    the store at the time of the call. *)
Theorem summary_is_current_join (reqs : list request) :
  ∃ data,
    resumen (run reqs empty_db) = Response (Resumen data, 200)
    ∧ e_id <$> data ≡ₚ (map_to_list (operations (run reqs empty_db))).*1
    ∧ StronglySorted summary_order data
    ∧ Forall (λ e, ∃ o s,
          operations (run reqs empty_db) !! e_id e = Some o
          ∧ silos (run reqs empty_db) !! Operation.silo_id o = Some s
          ∧ e_silo_id e = Operation.silo_id o
          ∧ e_type e = Operation.type o
          ∧ e_amount e = Operation.amount o
          ∧ e_timestamp e = Operation.created_at o
          ∧ e_silo_name e = Some (Silo.name s)
          ∧ e_balance_kg_post e = Some (Silo.balance_kg s)) data.
Proof.
  pose proof (reachable_inv reqs) as Hinv.
  set (db := run reqs empty_db) in *.
  exists (entry_of db <$> query_operations db). split_and!.
  - by apply resumen_returns.
  - rewrite <- list_fmap_compose.
    change (e_id ∘ entry_of db) with (@fst Z Operation.t).
    by rewrite query_operations_perm.
  - apply summary_sorted;
      [apply query_operations_sorted|apply query_operations_NoDup].
  - apply Forall_fmap, Forall_forall.
    intros o Ho%elem_of_query_operations.
    destruct (inv_op _ Hinv _ _ Ho) as [[s Hs] _].
    exists o.2, s. simpl. rewrite Hs. by split_and!.
Qed.

(** The balance in a row of the summary is the current one: after the
    requests of [scenario] the balance of silo 1 is 20, and the row of
    its first load of 100 shows 20, not 100. *)
Example summary_of_scenario :
  resumen (run scenario empty_db)
  = Response
      (Resumen
         [ mkEntry 3 1 (Some "A") "CARGA" 20 60 (Some 20);
           mkEntry 2 1 (Some "A") "DESCARGA" 100 40 (Some 20);
           mkEntry 1 1 (Some "A") "CARGA" 100 20 (Some 20) ], 200).
Proof. reflexivity. Qed.

(** C8: in a store reached by a sequence of requests, deleting the id,
    within [int64], of no silo is answered with the not-found error and
    changes nothing;
    deleting a silo that is there succeeds whatever its balance and
    cereal, removes the silo and exactly the operations that refer to
    it, and the summary asked for afterwards is returned and has no row
    for that silo. *)
Theorem delete_removes_silo_and_operations (reqs : list request) k :
  (int64 k → silos (run reqs empty_db) !! k = None →
   delete_silo (run reqs empty_db) k = (run reqs empty_db, Response NotFound))
  ∧ (∀ s, silos (run reqs empty_db) !! k = Some s →
       ∃ db' data,
         delete_silo (run reqs empty_db) k
         = (db', Response (Message "Silo eliminado.", 200))
         ∧ silos db' = delete k (silos (run reqs empty_db))
         ∧ (∀ j o, operations db' !! j = Some o ↔
                   operations (run reqs empty_db) !! j = Some o
                   ∧ Operation.silo_id o ≠ k)
         ∧ resumen db' = Response (Resumen data, 200)
         ∧ Forall (λ e, e_silo_id e ≠ k) data).
Proof.
  pose proof (reachable_inv reqs) as Hinv.
  set (db := run reqs empty_db) in *. split.
  - intros _. apply delete_silo_absent.
  - intros s Hk.
    exists (delete_cascade db k),
           (entry_of (delete_cascade db k) <$> query_operations (delete_cascade db k)).
    split_and!.
    + by eapply delete_silo_present.
    + done.
    + intros j o. simpl. by rewrite map_lookup_filter_Some.
    + by apply resumen_returns, db_inv_delete_cascade.
    + apply Forall_fmap, Forall_forall.
      intros o Ho%elem_of_query_operations. simpl in *.
      by apply map_lookup_filter_Some in Ho as [_ ?].
Qed.

Lemma delete_removes_silo_and_operations_witness :
  delete_silo db_two 9 = (db_two, Response NotFound)
  ∧ ∃ db' data,
      delete_silo db_two 1 = (db', Response (Message "Silo eliminado.", 200))
      ∧ silos db' = delete 1 (silos db_two)
      ∧ (∀ j o, operations db' !! j = Some o ↔
                operations db_two !! j = Some o ∧ Operation.silo_id o ≠ 1)
      ∧ resumen db' = Response (Resumen data, 200)
      ∧ Forall (λ e, e_silo_id e ≠ 1) data.
Proof.
  split.
  - apply (delete_removes_silo_and_operations
             [ POST_silos (body_name "A") 10;
               POST_cargar 1 (body_load 100 "Soja") 20;
               POST_silos (body_name "B") 30 ] 9);
      [unfold int64; lia|reflexivity].
  - apply (delete_removes_silo_and_operations
             [ POST_silos (body_name "A") 10;
               POST_cargar 1 (body_load 100 "Soja") 20;
               POST_silos (body_name "B") 30 ] 1)
      with (s := Silo.mk "A" (Some "Soja") 100 10).
    reflexivity.
Defined.

(** C9: in a store reached by a sequence of requests, a rename
    - with a name that is empty once stripped is answered with the
      invalid-input error;
    - otherwise, of the id, within [int64], of no silo, with the
      not-found error;
    - otherwise, to the name of another silo, with the duplicate-name
      error;
    and in these cases the store is left as it was.  Otherwise it
    succeeds: the row of the silo keeps its key, cereal, balance and
    creation instant and gets the stripped name, the other silos and all
    operations are as before, and the summary asked for afterwards shows
    the new name in every row of an operation of that silo. *)
Theorem rename_changes_only_name (reqs : list request) k body :
  let db := run reqs empty_db in
  let new_name := strip (default "" (j_name body)) in
  (new_name = "" →
   rename_silo db k body = (db, Response InvalidInput_new_name))
  ∧ (new_name ≠ "" → int64 k → silos db !! k = None →
     rename_silo db k body = (db, Response NotFound))
  ∧ (∀ s, new_name ≠ "" → silos db !! k = Some s →
       ((∃ k' s', silos db !! k' = Some s' ∧ k' ≠ k ∧ Silo.name s' = new_name) →
        rename_silo db k body = (db, Response DuplicateName))
       ∧ ((∀ k' s', silos db !! k' = Some s' → k' ≠ k → Silo.name s' ≠ new_name) →
          ∃ data,
            rename_silo db k body
            = (mkDB (<[k := Silo.mk new_name (Silo.cereal s) (Silo.balance_kg s)
                                    (Silo.created_at s)]> (silos db))
                    (operations db),
               Response (Message "Nombre actualizado.", 200))
            ∧ resumen (rename_silo db k body).1 = Response (Resumen data, 200)
            ∧ Forall (λ e, e_silo_id e = k → e_silo_name e = Some new_name) data)).
Proof.
  intros db new_name.
  pose proof (reachable_inv reqs : db_inv db) as Hinv.
  split_and!.
  - apply rename_silo_empty.
  - intros Hne _. by apply rename_silo_absent.
  - intros s Hne Hk. split.
    + intros Ht. apply (rename_silo_taken db k s body Hne Hk).
      by apply name_taken_spec.
    + intros Hfree.
      assert (rename_silo db k body
              = (mkDB (<[k := Silo.set_name new_name s]> (silos db)) (operations db),
                 Response (Message "Nombre actualizado.", 200))) as E.
      { apply rename_silo_free; [done|done| |].
        - by destruct (inv_silo _ Hinv _ _ Hk) as (? & _).
        - intros (k' & s' & ? & ? & ?)%name_taken_spec. by eapply Hfree. }
      pose proof (rename_silo_inv db k body Hinv) as Hinv'.
      rewrite E in Hinv' |- *. simpl in Hinv'. simpl.
      eexists. split_and!; [done|by apply resumen_returns|].
      apply Forall_fmap, Forall_forall. intros o _ Ho. simpl in *.
      by rewrite Ho, lookup_insert_eq.
Qed.

Lemma rename_changes_only_name_witness :
  rename_silo db_two 1 (body_name "   ") = (db_two, Response InvalidInput_new_name)
  ∧ rename_silo db_two 9 (body_name "C") = (db_two, Response NotFound)
  ∧ rename_silo db_two 1 (body_name "B") = (db_two, Response DuplicateName)
  ∧ ∃ data,
      rename_silo db_two 1 (body_name " A2 ")
      = (mkDB (<[1 := Silo.mk "A2" (Some "Soja") 100 10]> (silos db_two))
              (operations db_two),
         Response (Message "Nombre actualizado.", 200))
      ∧ resumen (rename_silo db_two 1 (body_name " A2 ")).1
        = Response (Resumen data, 200)
      ∧ Forall (λ e, e_silo_id e = 1 → e_silo_name e = Some "A2") data.
Proof.
  split_and!.
  - apply (rename_changes_only_name
             [ POST_silos (body_name "A") 10;
               POST_cargar 1 (body_load 100 "Soja") 20;
               POST_silos (body_name "B") 30 ] 1 (body_name "   ")).
    reflexivity.
  - apply (rename_changes_only_name
             [ POST_silos (body_name "A") 10;
               POST_cargar 1 (body_load 100 "Soja") 20;
               POST_silos (body_name "B") 30 ] 9 (body_name "C"));
      [discriminate|unfold int64; lia|reflexivity].
  - destruct (rename_changes_only_name
             [ POST_silos (body_name "A") 10;
               POST_cargar 1 (body_load 100 "Soja") 20;
               POST_silos (body_name "B") 30 ] 1 (body_name "B")) as (_ & _ & H).
    destruct (H (Silo.mk "A" (Some "Soja") 100 10)) as [Hdup _];
      [discriminate|reflexivity|].
    apply Hdup. exists 2, (Silo.mk "B" None 0 30).
    split_and!; [reflexivity|lia|reflexivity].
  - destruct (rename_changes_only_name
             [ POST_silos (body_name "A") 10;
               POST_cargar 1 (body_load 100 "Soja") 20;
               POST_silos (body_name "B") 30 ] 1 (body_name " A2 ")) as (_ & _ & H).
    destruct (H (Silo.mk "A" (Some "Soja") 100 10)) as [_ Hok];
      [discriminate|reflexivity|].
    apply Hok. intros k' s' Hk' Hne.
    change (silos (run [ POST_silos (body_name "A") 10;
               POST_cargar 1 (body_load 100 "Soja") 20;
               POST_silos (body_name "B") 30 ] empty_db))
      with (<[1 := Silo.mk "A" (Some "Soja") 100 10]>
              (<[2 := Silo.mk "B" None 0 30]> (∅ : gmap Z Silo.t))) in Hk'.
    rewrite lookup_insert_ne in Hk' by done.
    apply lookup_insert_Some in Hk' as [[_ <-]|[_ Hk']]; [discriminate|].
    by rewrite lookup_empty in Hk'.
Defined.

(** C10: in every store reached by a sequence of requests, a silo with
    [balance_kg > 0] has a cereal, and that cereal is one of
    [ALLOWED_CEREALES]; and a silo that has just been created there has
    balance 0 and no cereal. *)
Theorem stocked_silo_has_cereal (reqs : list request) :
  (∀ k s, silos (run reqs empty_db) !! k = Some s → 0 < Silo.balance_kg s →
          ∃ c, Silo.cereal s = Some c ∧ c ∈ ALLOWED_CEREALES)
  ∧ (∀ body now message id,
       (create_silo (run reqs empty_db) body now).2
       = Response (Created message id, 201) →
       ∃ s, silos (create_silo (run reqs empty_db) body now).1 !! id = Some s
            ∧ Silo.balance_kg s = 0 ∧ Silo.cereal s = None).
Proof.
  split.
  - intros k s Hk Hpos.
    destruct (inv_silo _ (reachable_inv reqs) _ _ Hk) as (_ & Hn & Hc).
    destruct (Silo.cereal s) as [c|] eqn:E; [eauto|].
    specialize (Hn eq_refl). lia.
  - intros body now message id. unfold create_silo.
    case_bool_decide; [discriminate|].
    destruct (write_silo _ _ _) as [db'|] eqn:Hw; [|discriminate].
    apply write_silo_Some in Hw as (_ & _ & ->). simpl.
    intros [= _ <-]. rewrite lookup_insert_eq. eauto.
Qed.

Lemma stocked_silo_has_cereal_witness :
  (∃ c, Some "Soja" = Some c ∧ c ∈ ALLOWED_CEREALES)
  ∧ ∃ s, silos (create_silo (run scenario empty_db) (body_name "B") 70).1 !! 2
         = Some s
         ∧ Silo.balance_kg s = 0 ∧ Silo.cereal s = None.
Proof.
  destruct (stocked_silo_has_cereal scenario) as [H1 H2]. split.
  - apply (H1 1 (Silo.mk "A" (Some "Soja") 20 10)); [reflexivity|simpl; lia].
  - apply (H2 (body_name "B") 70 "Silo 'B' creado correctamente." 2).
    reflexivity.
Defined.

(** * Further properties *)

(** ** Strings *)

Lemma prefix_drop p s :
  String.prefix p s = true → s = p +:+ string_drop (String.length p) s.
Proof.
  revert s. induction p as [|a p IH]; intros s; [by destruct s|].
  destruct s as [|b s]; simpl; [done|].
  destruct (ascii_dec a b) as [->|]; [|done].
  intros H. change (String b s = String b (p +:+ string_drop (String.length p) s)).
  f_equal. by apply IH.
Qed.

Lemma prefix_app p r : String.prefix p (p +:+ r) = true.
Proof.
  induction p as [|a p IH]; simpl; [by destruct r|].
  by destruct (ascii_dec a a).
Qed.

Lemma string_drop_app p r : string_drop (String.length p) (p +:+ r) = r.
Proof. induction p as [|a p IH]; simpl; [done|exact IH]. Qed.

Lemma replace_first_unfold old new s :
  replace_first old new s
  = if String.prefix old s
    then new +:+ string_drop (String.length old) s
    else match s with
         | EmptyString => EmptyString
         | String a s' => String a (replace_first old new s')
         end.
Proof. by destruct s. Qed.

(** An occurrence at the start is the one that is replaced. *)
Lemma replace_first_prefix old new r :
  replace_first old new (old +:+ r) = new +:+ r.
Proof.
  rewrite replace_first_unfold, prefix_app. by rewrite string_drop_app.
Qed.

Lemma lstrip_head s :
  match lstrip s with
  | EmptyString => True
  | String a _ => isspace a = false
  end.
Proof.
  induction s as [|a s IH]; simpl; [done|].
  destruct (isspace a) eqn:E; [done|]. by simpl.
Qed.

Lemma lstrip_id s :
  match s with EmptyString => True | String a _ => isspace a = false end →
  lstrip s = s.
Proof. destruct s as [|a s]; simpl; [done|]. by intros ->. Qed.

Lemma rstrip_head a s :
  isspace a = false → ∃ r, rstrip (String a s) = String a r.
Proof. intros E. simpl. rewrite E. destruct (rstrip s); eauto. Qed.

Lemma rstrip_idem s : rstrip (rstrip s) = rstrip s.
Proof.
  induction s as [|a s IH]; [done|]. simpl.
  destruct (rstrip s) as [|b r] eqn:E.
  - destruct (isspace a) eqn:Ea; [done|]. simpl. by rewrite Ea.
  - simpl in IH |- *. by rewrite IH.
Qed.

Lemma strip_idem s : strip (strip s) = strip s.
Proof.
  unfold strip.
  assert (lstrip (rstrip (lstrip s)) = rstrip (lstrip s)) as ->.
  { apply lstrip_id. pose proof (lstrip_head s) as H.
    destruct (lstrip s) as [|a t]; [done|].
    destruct (rstrip_head a t H) as [r ->]. done. }
  apply rstrip_idem.
Qed.

(** ** Configuration *)

Lemma get_database_url_unfold env :
  get_database_url env
  = let url := strip (default "" env) in
    if bool_decide (url = "") then "sqlite:///silos.db"
    else
      let url1 := if startswith url "postgres://"
                  then replace_first "postgres://" "postgresql://" url else url in
      if startswith url1 "postgresql://"
      then replace_first "postgresql://" "postgresql+psycopg://" url1 else url1.
Proof. unfold get_database_url. by case_bool_decide. Qed.

(** X1: the database URL.  With [DATABASE_URL] unset or blank the local
    SQLite file is used; a URL that, once stripped, starts with
    [postgres://] or with [postgresql://] is returned with that scheme
    replaced by [postgresql+psycopg://] and the rest as it was. *)
Theorem database_url_scheme (env : option string) :
  (strip (default "" env) = "" → get_database_url env = "sqlite:///silos.db")
  ∧ (∀ rest, strip (default "" env) = "postgres://" +:+ rest →
             get_database_url env = "postgresql+psycopg://" +:+ rest)
  ∧ (∀ rest, strip (default "" env) = "postgresql://" +:+ rest →
             get_database_url env = "postgresql+psycopg://" +:+ rest).
Proof.
  rewrite get_database_url_unfold. split_and!.
  - intros ->. done.
  - intros rest ->. cbv zeta.
    rewrite bool_decide_eq_false_2 by done.
    unfold startswith. rewrite (prefix_app "postgres://" rest).
    rewrite (replace_first_prefix "postgres://" "postgresql://" rest).
    rewrite (prefix_app "postgresql://" rest).
    by rewrite (replace_first_prefix "postgresql://" "postgresql+psycopg://" rest).
  - intros rest ->. cbv zeta.
    rewrite bool_decide_eq_false_2 by done.
    unfold startswith.
    assert (String.prefix "postgres://" ("postgresql://" +:+ rest) = false) as ->
      by reflexivity.
    rewrite (prefix_app "postgresql://" rest).
    by rewrite (replace_first_prefix "postgresql://" "postgresql+psycopg://" rest).
Qed.

Lemma database_url_scheme_witness :
  get_database_url (Some "   ") = "sqlite:///silos.db"
  ∧ get_database_url (Some " postgres://u:p@host/db ")
    = "postgresql+psycopg://u:p@host/db"
  ∧ get_database_url (Some "postgresql://u:p@host/db")
    = "postgresql+psycopg://u:p@host/db".
Proof.
  split_and!.
  - destruct (database_url_scheme (Some "   ")) as (H & _ & _).
    apply H. reflexivity.
  - destruct (database_url_scheme (Some " postgres://u:p@host/db "))
      as (_ & H & _).
    apply (H "u:p@host/db"). reflexivity.
  - destruct (database_url_scheme (Some "postgresql://u:p@host/db"))
      as (_ & _ & H).
    apply (H "u:p@host/db"). reflexivity.
Defined.

(** X2: the URL returned is never empty and never starts with
    [postgres://] or [postgresql://], the two schemes that the driver
    does not take. *)
Theorem database_url_normal (env : option string) :
  get_database_url env ≠ ""
  ∧ startswith (get_database_url env) "postgres://" = false
  ∧ startswith (get_database_url env) "postgresql://" = false.
Proof.
  rewrite get_database_url_unfold. cbv zeta.
  set (url := strip (default "" env)).
  case_bool_decide as Hurl; [by split_and!|].
  unfold startswith.
  destruct (String.prefix "postgres://" url) eqn:E1.
  - apply prefix_drop in E1. set (rest := string_drop _ url) in E1.
    rewrite E1.
    rewrite (replace_first_prefix "postgres://" "postgresql://" rest).
    rewrite (prefix_app "postgresql://" rest).
    rewrite (replace_first_prefix "postgresql://" "postgresql+psycopg://" rest).
    by split_and!.
  - destruct (String.prefix "postgresql://" url) eqn:E2.
    + apply prefix_drop in E2. set (rest := string_drop _ url) in E2.
      rewrite E2 in E1 |- *.
      rewrite (replace_first_prefix "postgresql://" "postgresql+psycopg://" rest).
      by split_and!.
    + by split_and!.
Qed.

(** ** Creation *)

Lemma create_silo_blank db body now :
  strip (default "" (j_name body)) = "" →
  create_silo db body now = (db, Response InvalidInput_name).
Proof. intros E. unfold create_silo. by rewrite bool_decide_eq_true_2. Qed.

Lemma create_silo_taken db body now k s :
  strip (default "" (j_name body)) ≠ "" →
  silos db !! k = Some s → Silo.name s = strip (default "" (j_name body)) →
  create_silo db body now = (db, Response DuplicateName).
Proof.
  intros E Hk Hn. unfold create_silo.
  rewrite bool_decide_eq_false_2 by done.
  destruct (write_silo _ _ _) as [db'|] eqn:Hw; [|done].
  apply write_silo_Some in Hw as (_ & Hfree & _). exfalso. apply Hfree.
  apply name_taken_spec. exists k, s. split_and!; [done| |done].
  intros ->. by rewrite next_id_fresh in Hk.
Qed.

Lemma create_silo_free db body now :
  strip (default "" (j_name body)) ≠ "" →
  (∀ k s, silos db !! k = Some s →
          Silo.name s ≠ strip (default "" (j_name body))) →
  create_silo db body now
  = (mkDB (<[next_id (silos db)
             := Silo.mk (strip (default "" (j_name body))) None 0 now]> (silos db))
          (operations db),
     Response (Created ("Silo '" +:+ strip (default "" (j_name body))
                          +:+ "' creado correctamente.")
                       (next_id (silos db)), 201)).
Proof.
  intros E Hfree. unfold create_silo.
  rewrite bool_decide_eq_false_2 by done.
  destruct (write_silo _ _ _) as [db'|] eqn:Hw.
  - by apply write_silo_Some in Hw as (_ & _ & ->).
  - exfalso. apply write_silo_None in Hw as [Hw|Hw].
    + apply Hw. unfold Silo.balance_non_negative. simpl. lia.
    + apply name_taken_spec in Hw as (k & s & Hk & _ & Hn). by eapply Hfree.
Qed.

(** X3: creation of a silo, in any store.  A name that is empty once
    stripped (or no name) is answered 400 and the name of a silo that is
    there is answered 409, both without a change to the store; any other
    name is answered 201 with an id that was not in use, under which the
    store gets a silo of that name with balance 0 and no cereal, and
    nothing else changes. *)
Theorem create_silo_outcomes db body now :
  let name := strip (default "" (j_name body)) in
  (name = "" → create_silo db body now = (db, Response InvalidInput_name))
  ∧ (name ≠ "" → (∃ k s, silos db !! k = Some s ∧ Silo.name s = name) →
     create_silo db body now = (db, Response DuplicateName))
  ∧ (name ≠ "" → (∀ k s, silos db !! k = Some s → Silo.name s ≠ name) →
     silos db !! next_id (silos db) = None
     ∧ create_silo db body now
       = (mkDB (<[next_id (silos db) := Silo.mk name None 0 now]> (silos db))
               (operations db),
          Response (Created ("Silo '" +:+ name +:+ "' creado correctamente.")
                            (next_id (silos db)), 201))).
Proof.
  intros name. split_and!.
  - apply create_silo_blank.
  - intros E (k & s & Hk & Hn). by eapply create_silo_taken.
  - intros E Hfree. split; [apply next_id_fresh|by apply create_silo_free].
Qed.

Lemma create_silo_outcomes_witness :
  create_silo db_two (mkJson None None None) 40
  = (db_two, Response InvalidInput_name)
  ∧ create_silo db_two (body_name "  B ") 40 = (db_two, Response DuplicateName)
  ∧ create_silo empty_db (body_name " C ") 40
    = (mkDB (<[1 := Silo.mk "C" None 0 40]> ∅) ∅,
       Response (Created "Silo 'C' creado correctamente." 1, 201)).
Proof.
  split_and!.
  - destruct (create_silo_outcomes db_two (mkJson None None None) 40)
      as (H & _ & _).
    apply H. reflexivity.
  - destruct (create_silo_outcomes db_two (body_name "  B ") 40) as (_ & H & _).
    apply H; [discriminate|].
    exists 2, (Silo.mk "B" None 0 30). split; reflexivity.
  - destruct (create_silo_outcomes empty_db (body_name " C ") 40) as (_ & _ & H).
    apply H; [discriminate|]. intros k s Hk. simpl in Hk.
    by rewrite lookup_empty in Hk.
Defined.

Lemma create_silo_created db body now message id :
  (create_silo db body now).2 = Response (Created message id, 201) →
  strip (default "" (j_name body)) ≠ ""
  ∧ id = next_id (silos db)
  ∧ (create_silo db body now).1
    = mkDB (<[next_id (silos db)
              := Silo.mk (strip (default "" (j_name body))) None 0 now]> (silos db))
           (operations db).
Proof.
  unfold create_silo. case_bool_decide as E; [discriminate|].
  destruct (write_silo _ _ _) as [db'|] eqn:Hw; [|discriminate].
  apply write_silo_Some in Hw as (_ & _ & ->). simpl.
  intros [= _ <-]. done.
Qed.

(** X4: two creations with names that are equal once stripped: if the
    first is answered 201, the second is answered 409 and leaves the
    store of the first as it is. *)
Theorem create_silo_twice db body1 now1 body2 now2 message id :
  strip (default "" (j_name body2)) = strip (default "" (j_name body1)) →
  (create_silo db body1 now1).2 = Response (Created message id, 201) →
  create_silo (create_silo db body1 now1).1 body2 now2
  = ((create_silo db body1 now1).1, Response DuplicateName).
Proof.
  intros En (E & _ & Hdb)%create_silo_created.
  eapply (create_silo_taken _ _ _ (next_id (silos db))).
  - by rewrite En.
  - rewrite Hdb. simpl. apply lookup_insert_eq.
  - by rewrite En.
Qed.

Lemma create_silo_twice_witness :
  create_silo (create_silo empty_db (body_name "A") 10).1 (body_name " A  ") 20
  = ((create_silo empty_db (body_name "A") 10).1, Response DuplicateName).
Proof.
  apply (create_silo_twice empty_db (body_name "A") 10 (body_name " A  ") 20
           "Silo 'A' creado correctamente." 1); reflexivity.
Defined.

(** ** Names *)

Lemma name_ok_strip n :
  strip n ≠ "" → ∀ c b t, name_ok (Silo.mk (strip n) c b t).
Proof. intros E c b t. split; simpl; [done|apply strip_idem]. Qed.

Lemma names_inv_write db k row :
  names_inv db → name_ok row →
  names_inv (mkDB (<[k := row]> (silos db)) (operations db)).
Proof.
  intros Hinv Hrow j s. simpl. rewrite lookup_insert.
  case_decide; [by intros [= <-]|apply Hinv].
Qed.

Lemma handle_names_inv db r : names_inv db → names_inv (handle db r).1.
Proof.
  intros Hinv. destruct r as [body now|j body|j|j body now|j body now|]; simpl.
  - unfold create_silo. case_bool_decide as E; [done|].
    destruct (write_silo _ _ _) as [db'|] eqn:Hw; [|done].
    apply write_silo_Some in Hw as (_ & _ & ->). simpl.
    apply names_inv_write; [done|]. by apply name_ok_strip.
  - unfold rename_silo. case_bool_decide as E; [done|].
    destruct (silos db !! j) as [s|] eqn:Hj; [|done].
    destruct (write_silo _ _ _) as [db'|] eqn:Hw; [|done].
    apply write_silo_Some in Hw as (_ & _ & ->). simpl.
    apply names_inv_write; [done|]. by apply name_ok_strip.
  - unfold delete_silo. destruct (silos db !! j); [|done]. simpl.
    intros i s Hi. simpl in Hi. apply lookup_delete_Some in Hi as [_ ?].
    by eapply Hinv.
  - destruct (cargar_cases db j body now)
      as [[-> _]|(s & Hs & _ & _ & _ & ->)]; [done|]. simpl.
    intros i t. simpl. rewrite lookup_insert. case_decide; [|apply Hinv].
    intros [= <-]. unfold name_ok. rewrite loaded_name. by eapply Hinv.
  - destruct (descargar_cases db j body now)
      as [[-> _]|(s & Hs & _ & _ & ->)]; [done|]. simpl.
    intros i t. simpl. rewrite lookup_insert. case_decide; [|apply Hinv].
    intros [= <-]. exact (Hinv _ _ Hs).
  - done.
Qed.

Lemma run_names_inv reqs db : names_inv db → names_inv (run reqs db).
Proof.
  revert db. induction reqs as [|r reqs IH]; intros db Hinv; [done|].
  simpl. apply IH. by apply handle_names_inv.
Qed.

(** X5: after every sequence of requests, the name of every silo is not
    empty and has no white space at either end, and no two silos have
    the same name. *)
Theorem names_well_formed_and_unique (reqs : list request) :
  (∀ k s, silos (run reqs empty_db) !! k = Some s →
          Silo.name s ≠ "" ∧ strip (Silo.name s) = Silo.name s)
  ∧ (∀ k1 k2 s1 s2,
       silos (run reqs empty_db) !! k1 = Some s1 →
       silos (run reqs empty_db) !! k2 = Some s2 →
       Silo.name s1 = Silo.name s2 → k1 = k2).
Proof.
  split.
  - apply (run_names_inv reqs empty_db). intros k s Hk. simpl in Hk.
    by rewrite lookup_empty in Hk.
  - apply (inv_unique _ (reachable_inv reqs)).
Qed.

Lemma names_well_formed_and_unique_witness :
  ("B" ≠ "" ∧ strip "B" = "B") ∧ 2 = 2.
Proof.
  destruct (names_well_formed_and_unique
              [ POST_silos (body_name "A") 10;
                POST_cargar 1 (body_load 100 "Soja") 20;
                POST_silos (body_name "B") 30;
                POST_silos (body_name " B") 40 ]) as [H1 H2]. split.
  - apply (H1 2 (Silo.mk "B" None 0 30)). reflexivity.
  - apply (H2 2 2 (Silo.mk "B" None 0 30) (Silo.mk "B" None 0 30));
      reflexivity.
Defined.

(** ** No request is answered with an exception *)

(** X6: in a store reached by a sequence of requests that fit, a request
    that fits does not make its handler raise: the constraints of the
    tables never reject a commit of a load or unload, and the summary
    never meets an operation without its silo. *)
Theorem no_uncaught_exception (reqs : list request) (r : request) (e : exn) :
  all_fit empty_db reqs → fits (run reqs empty_db) r →
  (handle (run reqs empty_db) r).2 ≠ Raised e.
Proof.
  intros _ _. pose proof (reachable_inv reqs) as Hinv.
  destruct r as [body now|j body|j|j body now|j body now|]; simpl.
  - unfold create_silo. case_bool_decide; [done|].
    by destruct (write_silo _ _ _).
  - unfold rename_silo. case_bool_decide; [done|].
    destruct (silos _ !! j); [|done]. by destruct (write_silo _ _ _).
  - unfold delete_silo. by destruct (silos _ !! j).
  - by apply cargar_never_raises.
  - by apply descargar_never_raises.
  - by rewrite resumen_returns.
Qed.

Lemma no_uncaught_exception_witness :
  (handle (run scenario empty_db) (POST_cargar 1 (body_amount 5) 70)).2
  ≠ Raised IntegrityError.
Proof.
  apply (no_uncaught_exception scenario (POST_cargar 1 (body_amount 5) 70)).
  - vm_compute. repeat split; discriminate.
  - vm_compute. repeat split; discriminate.
Defined.

(** ** What a request leaves alone *)

Lemma add_operation_lookup db op j o :
  operations db !! j = Some o → operations (add_operation db op) !! j = Some o.
Proof.
  intros Hj. simpl. rewrite lookup_insert_ne; [done|].
  intros E. rewrite <- E in Hj. by rewrite next_id_fresh in Hj.
Qed.

(** X7: operations are only ever added, or removed with their silo: in
    any store, a request other than the deletion of the silo of an
    operation leaves that operation in the store unchanged, under the
    same id. *)
Theorem operations_append_only db r j o :
  operations db !! j = Some o → r ≠ DELETE_silo (Operation.silo_id o) →
  operations (handle db r).1 !! j = Some o.
Proof.
  intros Hj Hr. destruct r as [body now|k body|k|k body now|k body now|]; simpl.
  - unfold create_silo. case_bool_decide; [done|].
    destruct (write_silo _ _ _) as [db'|] eqn:Hw; [|done].
    by apply write_silo_Some in Hw as (_ & _ & ->).
  - unfold rename_silo. case_bool_decide; [done|].
    destruct (silos db !! k); [|done].
    destruct (write_silo _ _ _) as [db'|] eqn:Hw; [|done].
    by apply write_silo_Some in Hw as (_ & _ & ->).
  - unfold delete_silo. destruct (silos db !! k); [|done]. simpl.
    apply map_lookup_filter_Some. split; [done|]. simpl. congruence.
  - destruct (cargar_cases db k body now)
      as [[-> _]|(s & _ & _ & _ & _ & ->)]; [done|].
    by apply (add_operation_lookup (mkDB _ (operations db))).
  - destruct (descargar_cases db k body now)
      as [[-> _]|(s & _ & _ & _ & ->)]; [done|].
    by apply (add_operation_lookup (mkDB _ (operations db))).
  - done.
Qed.

Lemma operations_append_only_witness :
  operations (handle db_soja (DELETE_silo 2)).1 !! 1
  = Some (Operation.mk 1 "CARGA" 100 20).
Proof.
  apply (operations_append_only db_soja (DELETE_silo 2) 1
           (Operation.mk 1 "CARGA" 100 20)); [reflexivity|discriminate].
Defined.

Lemma other_silos_kept db r j s :
  silos db !! j = Some s → target r ≠ Some j →
  silos (handle db r).1 !! j = Some s.
Proof.
  intros Hj Hr. destruct r as [body now|k body|k|k body now|k body now|]; simpl.
  - unfold create_silo. case_bool_decide; [done|].
    destruct (write_silo _ _ _) as [db'|] eqn:Hw; [|done].
    apply write_silo_Some in Hw as (_ & _ & ->). simpl.
    rewrite lookup_insert_ne; [done|].
    intros E. rewrite <- E in Hj. by rewrite next_id_fresh in Hj.
  - unfold rename_silo. case_bool_decide; [done|].
    destruct (silos db !! k); [|done].
    destruct (write_silo _ _ _) as [db'|] eqn:Hw; [|done].
    apply write_silo_Some in Hw as (_ & _ & ->). simpl.
    rewrite lookup_insert_ne; [done|]. simpl in Hr. congruence.
  - unfold delete_silo. destruct (silos db !! k); [|done]. simpl.
    rewrite lookup_delete_ne; [done|]. simpl in Hr. congruence.
  - destruct (cargar_cases db k body now)
      as [[-> _]|(t & _ & _ & _ & _ & ->)]; [done|]. simpl.
    rewrite lookup_insert_ne; [done|]. simpl in Hr. congruence.
  - destruct (descargar_cases db k body now)
      as [[-> _]|(t & _ & _ & _ & ->)]; [done|]. simpl.
    rewrite lookup_insert_ne; [done|]. simpl in Hr. congruence.
  - done.
Qed.

(** X8: in any store, a request changes no silo other than the one it
    names in its path: every other silo that is there keeps its name,
    cereal, balance and creation instant. *)
Theorem other_silos_untouched db r j s :
  silos db !! j = Some s → target r ≠ Some j →
  silos (handle db r).1 !! j = Some s.
Proof. apply other_silos_kept. Qed.

Lemma other_silos_untouched_witness :
  silos (handle db_two (POST_descargar 1 (body_amount 40) 50)).1 !! 2
  = Some (Silo.mk "B" None 0 30).
Proof.
  apply (other_silos_untouched db_two (POST_descargar 1 (body_amount 40) 50) 2
           (Silo.mk "B" None 0 30)); [reflexivity|discriminate].
Defined.

(** ** Loads and unloads that go through *)

Lemma cargar_success db k s body now :
  db_inv db → silos db !! k = Some s → 0 < default 0 (j_amount body) →
  (Silo.cereal s = None → allowed (j_cereal body) = true) →
  (∀ c, Silo.cereal s = Some c →
        truthy (j_cereal body) = false ∨ j_cereal body = Some c) →
  cargar db k body now
  = (committed db k (loaded s (default 0 (j_amount body)) (j_cereal body))
               (Operation.mk k "CARGA" (default 0 (j_amount body)) now),
     Response (Carga "Carga registrada."
                 (Silo.balance_kg s + default 0 (j_amount body))
                 (Silo.cereal (loaded s (default 0 (j_amount body)) (j_cereal body))),
               200)).
Proof.
  intros Hinv Hs Ha Hnone Hsome.
  destruct (inv_silo _ Hinv _ _ Hs) as (Hb & Hn & Hc).
  unfold cargar. rewrite bool_decide_eq_false_2 by lia. rewrite Hs.
  match goal with
  | |- context [if ?g then (db, Response InvalidInput_cereal) else _] =>
      assert (g = false) as ->
  end.
  { destruct (Silo.cereal s) as [c0|] eqn:Ec.
    - rewrite (bool_decide_eq_false_2 (Some c0 = None)) by done.
      by rewrite andb_false_r.
    - rewrite (Hnone eq_refl).
      destruct (allowed_true _ (Hnone eq_refl)) as (x & -> & Hin). simpl.
      rewrite (bool_decide_eq_false_2 (x = "")); [|by apply allowed_nonempty].
      by rewrite andb_false_r. }
  match goal with
  | |- context [if ?g then (db, Response (CerealMismatch _)) else _] =>
      assert (g = false) as ->
  end.
  { destruct (Silo.cereal s) as [c0|] eqn:Ec.
    - rewrite (bool_decide_eq_false_2 (Some c0 = None)) by done.
      rewrite andb_false_r. rewrite Ec.
      destruct (Hsome c0 eq_refl) as [-> | ->].
      + by rewrite andb_false_r.
      + rewrite bool_decide_eq_true_2 by done. by rewrite andb_false_r.
    - rewrite (Hn eq_refl), !bool_decide_eq_true_2 by done. simpl.
      by rewrite andb_false_r. }
  fold (loaded s (default 0 (j_amount body)) (j_cereal body)).
  assert (write_silo db k (loaded s (default 0 (j_amount body)) (j_cereal body))
          = Some (mkDB (<[k := loaded s (default 0 (j_amount body)) (j_cereal body)]>
                          (silos db)) (operations db))) as ->.
  { apply write_silo_Some. split_and!; [|
      rewrite loaded_name; by apply db_inv_not_taken|done].
    unfold Silo.balance_non_negative. rewrite loaded_balance_kg. lia. }
  by rewrite loaded_balance_kg.
Qed.

Lemma descargar_success db k s body now :
  db_inv db → silos db !! k = Some s → 0 < default 0 (j_amount body) →
  default 0 (j_amount body) ≤ Silo.balance_kg s →
  descargar db k body now
  = (committed db k (unloaded s (default 0 (j_amount body)))
               (Operation.mk k "DESCARGA" (default 0 (j_amount body)) now),
     Response (Descarga "Descarga registrada."
                 (Silo.balance_kg s - default 0 (j_amount body)), 200)).
Proof.
  intros Hinv Hs Ha Hle. unfold descargar.
  rewrite bool_decide_eq_false_2 by lia. rewrite Hs.
  rewrite bool_decide_eq_false_2 by lia.
  fold (unloaded s (default 0 (j_amount body))).
  assert (write_silo db k (unloaded s (default 0 (j_amount body)))
          = Some (mkDB (<[k := unloaded s (default 0 (j_amount body))]>
                          (silos db)) (operations db))) as ->; [|done].
  apply write_silo_Some.
  split_and!; [|exact (db_inv_not_taken _ _ _ Hinv Hs)|done].
  unfold Silo.balance_non_negative. simpl. lia.
Qed.

(** X9: in a store reached by a sequence of requests that fit, a load
    with a positive amount into a silo that is there, which brings a
    balance below 2^63, goes through whenever the cereal is acceptable:
    an allowed cereal for a silo without one; no cereal, an empty one or
    the cereal of the silo for a silo that has one.  The answer carries the old balance plus the amount; the silo
    gets that balance, takes the cereal of the request if it had none,
    and keeps its name and creation instant; one CARGA operation is
    added. *)
Theorem load_accepted (reqs : list request) k s body now :
  all_fit empty_db reqs →
  silos (run reqs empty_db) !! k = Some s →
  0 < default 0 (j_amount body) →
  Silo.balance_kg s + default 0 (j_amount body) < 2 ^ 63 →
  (Silo.cereal s = None → allowed (j_cereal body) = true) →
  (∀ c, Silo.cereal s = Some c →
        j_cereal body = None ∨ j_cereal body = Some "" ∨ j_cereal body = Some c) →
  cargar (run reqs empty_db) k body now
  = (committed (run reqs empty_db) k
       (Silo.mk (Silo.name s)
                (match Silo.cereal s with
                 | None => j_cereal body
                 | Some c => Some c
                 end)
                (Silo.balance_kg s + default 0 (j_amount body))
                (Silo.created_at s))
       (Operation.mk k "CARGA" (default 0 (j_amount body)) now),
     Response (Carga "Carga registrada."
                 (Silo.balance_kg s + default 0 (j_amount body))
                 (match Silo.cereal s with
                  | None => j_cereal body
                  | Some c => Some c
                  end), 200)).
Proof.
  intros _ Hk Ha _ Hnone Hsome.
  pose proof (reachable_inv reqs) as Hinv.
  destruct (inv_silo _ Hinv _ _ Hk) as (_ & Hn & _).
  rewrite (cargar_success _ k s body now Hinv Hk Ha Hnone).
  - assert (loaded s (default 0 (j_amount body)) (j_cereal body)
            = Silo.mk (Silo.name s)
                      (match Silo.cereal s with
                       | None => j_cereal body
                       | Some c => Some c
                       end)
                      (Silo.balance_kg s + default 0 (j_amount body))
                      (Silo.created_at s)) as ->; [|done].
    unfold loaded. destruct (Silo.cereal s) as [c|] eqn:E.
    + rewrite (bool_decide_eq_false_2 (Some c = None)) by done.
      rewrite andb_false_r. unfold Silo.set_balance_kg. by rewrite E.
    + rewrite (bool_decide_eq_true_2 _ (Hn eq_refl)).
      rewrite bool_decide_eq_true_2 by done. done.
  - intros c Hc. destruct (Hsome c Hc) as [-> |[-> | ->]]; auto.
Qed.

Lemma load_accepted_witness :
  cargar db_two 1 (body_amount 5) 40
  = (committed db_two 1 (Silo.mk "A" (Some "Soja") 105 10)
               (Operation.mk 1 "CARGA" 5 40),
     Response (Carga "Carga registrada." 105 (Some "Soja"), 200)).
Proof.
  apply (load_accepted
           [ POST_silos (body_name "A") 10;
             POST_cargar 1 (body_load 100 "Soja") 20;
             POST_silos (body_name "B") 30 ]
           1 (Silo.mk "A" (Some "Soja") 100 10) (body_amount 5) 40).
  - vm_compute. repeat split; discriminate.
  - reflexivity.
  - simpl. lia.
  - simpl. lia.
  - discriminate.
  - intros c _. by left.
Defined.

(** X10: in a store reached by a sequence of requests, an unload with a
    positive amount that is at most the balance goes through, the whole
    balance included: the answer carries the balance less the amount,
    the silo gets that balance and keeps its name, cereal and creation
    instant (also when the balance becomes 0), and one DESCARGA
    operation is added. *)
Theorem unload_accepted (reqs : list request) k s body now :
  silos (run reqs empty_db) !! k = Some s →
  0 < default 0 (j_amount body) →
  default 0 (j_amount body) ≤ Silo.balance_kg s →
  descargar (run reqs empty_db) k body now
  = (committed (run reqs empty_db) k
       (Silo.mk (Silo.name s) (Silo.cereal s)
                (Silo.balance_kg s - default 0 (j_amount body))
                (Silo.created_at s))
       (Operation.mk k "DESCARGA" (default 0 (j_amount body)) now),
     Response (Descarga "Descarga registrada."
                 (Silo.balance_kg s - default 0 (j_amount body)), 200)).
Proof.
  intros Hk Ha Hle.
  exact (descargar_success _ k s body now (reachable_inv reqs) Hk Ha Hle).
Qed.

Lemma unload_accepted_witness :
  descargar db_two 1 (body_amount 100) 40
  = (committed db_two 1 (Silo.mk "A" (Some "Soja") 0 10)
               (Operation.mk 1 "DESCARGA" 100 40),
     Response (Descarga "Descarga registrada." 0, 200)).
Proof.
  apply (unload_accepted
           [ POST_silos (body_name "A") 10;
             POST_cargar 1 (body_load 100 "Soja") 20;
             POST_silos (body_name "B") 30 ]
           1 (Silo.mk "A" (Some "Soja") 100 10) (body_amount 100) 40).
  - reflexivity.
  - simpl. lia.
  - simpl. lia.
Defined.

(** X11: in a store reached by a sequence of requests, a load that is
    answered 200 can be undone: the unload of the same amount that
    follows is answered 200 with the balance from before the load, and
    leaves the silo with that balance, the cereal told by the load, and
    its name and creation instant. *)
Theorem load_then_unload (reqs : list request) k s body now1 now2 message b c :
  silos (run reqs empty_db) !! k = Some s →
  (cargar (run reqs empty_db) k body now1).2 = Response (Carga message b c, 200) →
  (descargar (cargar (run reqs empty_db) k body now1).1 k body now2).2
  = Response (Descarga "Descarga registrada." (Silo.balance_kg s), 200)
  ∧ silos (descargar (cargar (run reqs empty_db) k body now1).1 k body now2).1 !! k
    = Some (Silo.mk (Silo.name s) c (Silo.balance_kg s) (Silo.created_at s)).
Proof.
  intros Hk Hresp.
  pose proof (reachable_inv reqs) as Hinv.
  pose proof (cargar_inv _ k body now1 Hinv) as Hinv1.
  destruct (inv_silo _ Hinv _ _ Hk) as (Hb & _).
  destruct (cargar_cases (run reqs empty_db) k body now1)
    as [[_ Hf]|(s' & Hs' & Ha & _ & _ & E)].
  { rewrite Hresp in Hf. done. }
  rewrite E in Hresp, Hinv1 |- *. simpl in Hresp, Hinv1 |- *.
  replace s' with s in * by congruence.
  injection Hresp as _ _ <-.
  set (row := loaded s (default 0 (j_amount body)) (j_cereal body)) in *.
  assert (silos (committed (run reqs empty_db) k row
                   (Operation.mk k "CARGA" (default 0 (j_amount body)) now1))
          !! k = Some row) as Hrow by apply lookup_insert_eq.
  rewrite (descargar_success _ k row body now2 Hinv1 Hrow Ha).
  - assert (Silo.balance_kg row - default 0 (j_amount body) = Silo.balance_kg s)
      as Hbal by (subst row; rewrite loaded_balance_kg; lia).
    split.
    + cbn [snd]. by rewrite Hbal.
    + cbn [fst]. unfold committed at 1. cbn [silos].
      rewrite lookup_insert_eq. unfold unloaded, Silo.set_balance_kg.
      rewrite Hbal. subst row. by rewrite loaded_name, loaded_created_at.
  - subst row. rewrite loaded_balance_kg. lia.
Qed.

Lemma load_then_unload_witness :
  (descargar (cargar db_two 2 (body_load 7 "Trigo") 40).1 2
             (body_load 7 "Trigo") 50).2
  = Response (Descarga "Descarga registrada." 0, 200)
  ∧ silos (descargar (cargar db_two 2 (body_load 7 "Trigo") 40).1 2
                     (body_load 7 "Trigo") 50).1 !! 2
    = Some (Silo.mk "B" (Some "Trigo") 0 30).
Proof.
  apply (load_then_unload
           [ POST_silos (body_name "A") 10;
             POST_cargar 1 (body_load 100 "Soja") 20;
             POST_silos (body_name "B") 30 ]
           2 (Silo.mk "B" None 0 30) (body_load 7 "Trigo") 40 50
           "Carga registrada." 7 (Some "Trigo")); reflexivity.
Defined.

(** X12: a load with an amount that is missing, null, 0 or negative is
    answered 400 whether or not the silo exists and whatever the
    cereal; with a positive amount and the id, within [int64], of no
    silo it is answered 404.  The store is left as it was. *)
Theorem load_errors db k body now :
  (default 0 (j_amount body) ≤ 0 →
   cargar db k body now = (db, Response InvalidInput_amount))
  ∧ (0 < default 0 (j_amount body) → int64 k → silos db !! k = None →
     cargar db k body now = (db, Response NotFound)).
Proof.
  split; [apply cargar_amount|].
  intros Ha _. by apply cargar_not_found.
Qed.

Lemma load_errors_witness :
  cargar db_two 9 (mkJson None None (Some "Soja")) 40
  = (db_two, Response InvalidInput_amount)
  ∧ cargar db_two 9 (body_load 5 "Soja") 40 = (db_two, Response NotFound).
Proof.
  split.
  - apply (load_errors db_two 9 (mkJson None None (Some "Soja")) 40).
    simpl. lia.
  - apply (load_errors db_two 9 (body_load 5 "Soja") 40);
      [simpl; lia|unfold int64; lia|reflexivity].
Defined.

(** ** The balances against the operations *)

Lemma ledger_balance_insert (tbl : gmap Z Silo.t) (ops : gmap Z Operation.t) j o k :
  ops !! j = None →
  ledger_balance (mkDB tbl (<[j := o]> ops)) k
  = (if bool_decide (Operation.silo_id o = k) then signed_amount o else 0)
    + ledger_balance (mkDB tbl ops) k.
Proof.
  intros Hj. unfold ledger_balance. simpl.
  rewrite map_fold_insert_L; [|intros; repeat case_bool_decide; lia|done].
  case_bool_decide; lia.
Qed.

Lemma ledger_balance_absent db k :
  (∀ j o, operations db !! j = Some o → Operation.silo_id o ≠ k) →
  ledger_balance db k = 0.
Proof.
  unfold ledger_balance.
  apply (map_fold_weak_ind
           (λ r (m : gmap Z Operation.t),
              (∀ j o, m !! j = Some o → Operation.silo_id o ≠ k) → r = 0)).
  - done.
  - intros i x m r Hi IH H.
    rewrite bool_decide_eq_false_2.
    + apply IH. intros j o Hj. apply (H j). rewrite lookup_insert_ne; [done|].
      intros ->. congruence.
    + apply (H i). apply lookup_insert_eq.
Qed.

Lemma ledger_balance_cascade db k j :
  ledger_balance (delete_cascade db k) j
  = if decide (j = k) then 0 else ledger_balance db j.
Proof.
  unfold ledger_balance, delete_cascade. simpl.
  induction (operations db) as [|i x m Hi IH] using map_ind.
  - rewrite map_filter_empty, map_fold_empty. by case_decide.
  - destruct (decide (Operation.silo_id x = k)) as [E|E].
    + rewrite map_filter_insert_False by (simpl; auto).
      rewrite delete_id by done. rewrite IH.
      case_decide; [done|].
      rewrite map_fold_insert_L; [|intros; repeat case_bool_decide; lia|done].
      rewrite bool_decide_eq_false_2; [done|congruence].
    + rewrite map_filter_insert_True by done.
      rewrite map_fold_insert_L;
        [|intros; repeat case_bool_decide; lia
         |by apply map_lookup_filter_None; left].
      rewrite map_fold_insert_L; [|intros; repeat case_bool_decide; lia|done].
      rewrite IH. case_decide as Ejk; [|done].
      rewrite bool_decide_eq_false_2; [done|congruence].
Qed.

Lemma ledger_inv_empty : ledger_inv empty_db.
Proof. split; intros *; simpl; by rewrite lookup_empty. Qed.

Lemma ledger_inv_committed db k s row (op : Operation.t) :
  ledger_inv db → silos db !! k = Some s →
  Operation.silo_id op = k →
  Operation.type op = "CARGA" ∨ Operation.type op = "DESCARGA" →
  Silo.balance_kg row = signed_amount op + Silo.balance_kg s →
  ledger_inv (committed db k row op).
Proof.
  intros [Hty Hbal] Hk Hop Htype Hrow. split.
  - intros j o. simpl. rewrite lookup_insert.
    case_decide; [by intros [= <-]|apply Hty].
  - intros i t. unfold committed. simpl.
    rewrite (ledger_balance_insert _ _ _ _ _ (next_id_fresh (operations db))).
    change (ledger_balance (mkDB _ (operations db)) i) with (ledger_balance db i).
    rewrite lookup_insert. case_decide as E.
    + subst i. intros [= <-]. rewrite bool_decide_eq_true_2 by done.
      rewrite Hrow, (Hbal _ _ Hk). done.
    + intros Hi. rewrite bool_decide_eq_false_2 by congruence.
      rewrite (Hbal _ _ Hi). lia.
Qed.

Lemma handle_ledger_inv db r :
  db_inv db → ledger_inv db → ledger_inv (handle db r).1.
Proof.
  intros Hinv [Hty Hbal].
  destruct r as [body now|j body|j|j body now|j body now|]; simpl.
  - unfold create_silo. case_bool_decide as E; [done|].
    destruct (write_silo _ _ _) as [db'|] eqn:Hw; [|done].
    apply write_silo_Some in Hw as (_ & _ & ->). simpl. split; [done|].
    intros i t. simpl. rewrite lookup_insert. case_decide as Ei.
    + intros [= <-]. simpl. symmetry.
      change (ledger_balance (mkDB _ (operations db)) i) with (ledger_balance db i).
      apply ledger_balance_absent. intros j o Ho Hsid.
      destruct (inv_op _ Hinv _ _ Ho) as [[u Hu] _].
      rewrite Hsid, <- Ei in Hu. by rewrite next_id_fresh in Hu.
    + apply Hbal.
  - unfold rename_silo. case_bool_decide as E; [done|].
    destruct (silos db !! j) as [s|] eqn:Hj; [|done].
    destruct (write_silo _ _ _) as [db'|] eqn:Hw; [|done].
    apply write_silo_Some in Hw as (_ & _ & ->). simpl. split; [done|].
    intros i t. simpl. rewrite lookup_insert. case_decide as Ei.
    + subst i. intros [= <-]. simpl. exact (Hbal _ _ Hj).
    + apply Hbal.
  - unfold delete_silo. destruct (silos db !! j) as [s|] eqn:Hj; [|done].
    simpl. split.
    + intros i o Hi. simpl in Hi. apply map_lookup_filter_Some in Hi as [Hi _].
      by eapply Hty.
    + intros i t Hi. simpl in Hi. apply lookup_delete_Some in Hi as [Hne Hi].
      rewrite ledger_balance_cascade. rewrite decide_False by done.
      by apply Hbal.
  - destruct (cargar_cases db j body now)
      as [[-> _]|(s & Hs & _ & _ & _ & ->)]; [done|]. simpl.
    eapply ledger_inv_committed; eauto; [done|].
    rewrite loaded_balance_kg. unfold signed_amount. simpl. lia.
  - destruct (descargar_cases db j body now)
      as [[-> _]|(s & Hs & _ & _ & ->)]; [done|]. simpl.
    eapply ledger_inv_committed; eauto; [done|].
    unfold signed_amount. simpl. lia.
  - done.
Qed.

Lemma run_ledger_inv reqs db :
  db_inv db → ledger_inv db → ledger_inv (run reqs db).
Proof.
  revert db. induction reqs as [|r reqs IH]; intros db Hinv Hl; [done|].
  simpl. apply IH; [by apply handle_inv|by apply handle_ledger_inv].
Qed.

(** X13: after every sequence of requests, the balance of every silo is
    the sum of the amounts of its CARGA operations less the sum of the
    amounts of its DESCARGA operations: the operations alone give the
    balances back. *)
Theorem balance_is_sum_of_operations (reqs : list request) k s :
  silos (run reqs empty_db) !! k = Some s →
  Silo.balance_kg s = ledger_balance (run reqs empty_db) k.
Proof.
  apply (run_ledger_inv reqs empty_db db_inv_empty ledger_inv_empty).
Qed.

Lemma balance_is_sum_of_operations_witness :
  20 = ledger_balance (run scenario empty_db) 1.
Proof.
  apply (balance_is_sum_of_operations scenario 1 (Silo.mk "A" (Some "Soja") 20 10)).
  reflexivity.
Defined.

(** X14: after every sequence of requests, every operation in the store
    has type CARGA or DESCARGA, a positive amount, and the id of a silo
    that is in the store. *)
Theorem operations_well_formed (reqs : list request) j o :
  operations (run reqs empty_db) !! j = Some o →
  (Operation.type o = "CARGA" ∨ Operation.type o = "DESCARGA")
  ∧ 0 < Operation.amount o
  ∧ is_Some (silos (run reqs empty_db) !! Operation.silo_id o).
Proof.
  intros Ho.
  destruct (run_ledger_inv reqs empty_db db_inv_empty ledger_inv_empty) as [Hty _].
  destruct (inv_op _ (reachable_inv reqs) _ _ Ho) as [Hs Ha].
  split_and!; [by eapply Hty|done|done].
Qed.

Lemma operations_well_formed_witness :
  ("DESCARGA" = "CARGA" ∨ "DESCARGA" = "DESCARGA")
  ∧ 0 < 100
  ∧ is_Some (silos (run scenario empty_db) !! 1).
Proof.
  apply (operations_well_formed scenario 2 (Operation.mk 1 "DESCARGA" 100 40)).
  reflexivity.
Defined.

(** ** The list of silos *)

Global Instance silo_order_total : Total silo_order.
Proof. intros a b. unfold silo_order. lia. Qed.

Global Instance silo_order_trans : Transitive silo_order.
Proof. intros a b c. unfold silo_order. lia. Qed.

Lemma query_silos_perm db : query_silos db ≡ₚ map_to_list (silos db).
Proof. apply merge_sort_Permutation. Qed.

Lemma elem_of_query_silos db ks :
  ks ∈ query_silos db ↔ silos db !! ks.1 = Some ks.2.
Proof. rewrite query_silos_perm. apply elem_of_map_to_list'. Qed.

Lemma query_silos_ascending db :
  StronglySorted Z.lt (query_silos db).*1.
Proof.
  assert (NoDup (query_silos db).*1) as Hnd.
  { rewrite query_silos_perm. apply NoDup_fst_map_to_list. }
  assert (StronglySorted silo_order (query_silos db)) as Hs.
  { apply StronglySorted_merge_sort; apply _. }
  induction Hs as [|a l Hl IH Hall]; [constructor|].
  rewrite fmap_cons in Hnd |- *.
  apply NoDup_cons in Hnd as [Hnotin Hnd].
  constructor; [by apply IH|].
  apply Forall_fmap, Forall_forall. intros b Hb. simpl.
  assert (a.1 ≤ b.1) by (by eapply Forall_forall in Hall).
  assert (a.1 ≠ b.1).
  { intros E. apply Hnotin. rewrite E. apply list_elem_of_fmap. eauto. }
  lia.
Qed.

Lemma list_silos_rows db row :
  row ∈ list_silos db ↔
    ∃ k s, silos db !! k = Some s
           ∧ row = mkSiloRow k (Silo.name s) (Silo.cereal s)
                             (Silo.balance_kg s) (Silo.created_at s).
Proof.
  unfold list_silos. rewrite list_elem_of_fmap. split.
  - intros ([k s] & -> & Hin%elem_of_query_silos). eauto.
  - intros (k & s & Hk & ->). exists (k, s). split; [done|].
    by apply elem_of_query_silos.
Qed.

(** X15: the list of silos, in any store: its ids are in strictly
    ascending order, it has exactly one row for each silo of the store,
    and a row carries the id, name, cereal, balance and creation instant
    of its silo. *)
Theorem list_silos_sorted_and_complete db :
  StronglySorted Z.lt (r_id <$> list_silos db)
  ∧ length (list_silos db) = size (silos db)
  ∧ (∀ row, row ∈ list_silos db ↔
            ∃ k s, silos db !! k = Some s
                   ∧ row = mkSiloRow k (Silo.name s) (Silo.cereal s)
                                     (Silo.balance_kg s) (Silo.created_at s)).
Proof.
  split_and!.
  - unfold list_silos. rewrite <- list_fmap_compose. apply query_silos_ascending.
  - unfold list_silos. rewrite length_fmap, query_silos_perm.
    apply length_map_to_list.
  - apply list_silos_rows.
Qed.

(** ** Rename and delete *)

(** X16: in a store reached by a sequence of requests, a rename of a
    silo to the name that it has is answered 200, not 409, and the store
    is left as it was. *)
Theorem rename_to_own_name (reqs : list request) k s body :
  silos (run reqs empty_db) !! k = Some s →
  strip (default "" (j_name body)) = Silo.name s →
  rename_silo (run reqs empty_db) k body
  = (run reqs empty_db, Response (Message "Nombre actualizado.", 200)).
Proof.
  intros Hk Hn.
  pose proof (reachable_inv reqs) as Hinv.
  destruct (run_names_inv reqs empty_db) with (k := k) (s := s) as [Hne _];
    [intros i t Hi; simpl in Hi; by rewrite lookup_empty in Hi|done|].
  rewrite (rename_silo_free _ k s body).
  - rewrite Hn. f_equal.
    assert (Silo.set_name (Silo.name s) s = s) as -> by by destruct s.
    rewrite insert_id by done. by destruct (run reqs empty_db).
  - by rewrite Hn.
  - done.
  - by destruct (inv_silo _ Hinv _ _ Hk) as (? & _).
  - rewrite Hn. by apply db_inv_not_taken.
Qed.

Lemma rename_to_own_name_witness :
  rename_silo db_two 2 (body_name " B ")
  = (db_two, Response (Message "Nombre actualizado.", 200)).
Proof.
  apply (rename_to_own_name
           [ POST_silos (body_name "A") 10;
             POST_cargar 1 (body_load 100 "Soja") 20;
             POST_silos (body_name "B") 30 ]
           2 (Silo.mk "B" None 0 30) (body_name " B ")); reflexivity.
Defined.

(** X17: in any store, once a silo has been deleted, a load or unload
    with a positive amount, a rename with a non-blank name and a second
    deletion of that id are all answered 404 and change nothing, and the
    list of silos has no row with that id. *)
Theorem deleted_silo_not_found db k s body now :
  silos db !! k = Some s →
  (0 < default 0 (j_amount body) →
   cargar (delete_silo db k).1 k body now
   = ((delete_silo db k).1, Response NotFound)
   ∧ descargar (delete_silo db k).1 k body now
     = ((delete_silo db k).1, Response NotFound))
  ∧ (strip (default "" (j_name body)) ≠ "" →
     rename_silo (delete_silo db k).1 k body
     = ((delete_silo db k).1, Response NotFound))
  ∧ delete_silo (delete_silo db k).1 k = ((delete_silo db k).1, Response NotFound)
  ∧ Forall (λ row, r_id row ≠ k) (list_silos (delete_silo db k).1).
Proof.
  intros Hk. rewrite (delete_silo_present db k s Hk). cbn [fst].
  assert (silos (delete_cascade db k) !! k = None) as Hgone
    by apply lookup_delete_eq.
  split_and!.
  - intros Ha. split;
      [by apply cargar_not_found|by apply descargar_not_found].
  - intros Hn. by apply rename_silo_absent.
  - by apply delete_silo_absent.
  - apply Forall_forall. intros row Hrow Hid.
    apply (list_silos_rows (delete_cascade db k)) in Hrow as (i & t & Hi & ->).
    simpl in Hid. subst i. congruence.
Qed.

Lemma deleted_silo_not_found_witness :
  (cargar (delete_silo db_two 1).1 1 (body_load 5 "Soja") 40
   = ((delete_silo db_two 1).1, Response NotFound)
   ∧ descargar (delete_silo db_two 1).1 1 (body_load 5 "Soja") 40
     = ((delete_silo db_two 1).1, Response NotFound))
  ∧ delete_silo (delete_silo db_two 1).1 1
    = ((delete_silo db_two 1).1, Response NotFound).
Proof.
  destruct (deleted_silo_not_found db_two 1 (Silo.mk "A" (Some "Soja") 100 10)
              (body_load 5 "Soja") 40) as (H1 & _ & H3 & _); [reflexivity|].
  split; [|exact H3]. apply H1. simpl. lia.
Defined.

(** ** A silo lasts until it is deleted *)

Lemma handle_keeps_silo db r k s :
  silos db !! k = Some s → r ≠ DELETE_silo k →
  ∃ s', silos (handle db r).1 !! k = Some s'
        ∧ Silo.created_at s' = Silo.created_at s.
Proof.
  intros Hk Hr.
  destruct (decide (target r = Some k)) as [Ht|Ht].
  - destruct r as [body now|j body|j|j body now|j body now|];
      simpl in Ht; simplify_eq; simpl.
    + unfold rename_silo. case_bool_decide; [eauto|]. rewrite Hk.
      destruct (write_silo _ _ _) as [db'|] eqn:Hw; [|eauto].
      apply write_silo_Some in Hw as (_ & _ & ->). simpl.
      rewrite lookup_insert_eq. eauto.
    + destruct (cargar_cases db k body now)
        as [[-> _]|(t & Ht & _ & _ & _ & ->)]; [eauto|]. simpl.
      rewrite lookup_insert_eq. eexists; split; [done|].
      rewrite loaded_created_at. congruence.
    + destruct (descargar_cases db k body now)
        as [[-> _]|(t & Ht & _ & _ & ->)]; [eauto|]. simpl.
      rewrite lookup_insert_eq. eexists; split; [done|]. simpl. congruence.
  - exists s. split; [|done]. by apply other_silos_kept.
Qed.

(** X18: in any store, a silo stays in the store, under its id and with
    its creation instant, through every sequence of requests that does
    not delete it. *)
Theorem silo_lasts_until_deleted db (reqs : list request) k s :
  silos db !! k = Some s →
  Forall (λ r, r ≠ DELETE_silo k) reqs →
  ∃ s', silos (run reqs db) !! k = Some s'
        ∧ Silo.created_at s' = Silo.created_at s.
Proof.
  revert db s. induction reqs as [|r reqs IH]; intros db s Hk Hall.
  - simpl. eauto.
  - apply Forall_cons in Hall as [Hr Hall]. simpl.
    destruct (handle_keeps_silo db r k s Hk Hr) as (s' & Hk' & <-).
    by apply IH.
Qed.

Lemma silo_lasts_until_deleted_witness :
  ∃ s', silos (run [ PATCH_silo 1 (body_name "A2");
                     POST_descargar 1 (body_amount 100) 40;
                     DELETE_silo 2 ] db_two) !! 1 = Some s'
        ∧ Silo.created_at s' = 10.
Proof.
  apply (silo_lasts_until_deleted db_two
           [ PATCH_silo 1 (body_name "A2");
             POST_descargar 1 (body_amount 100) 40;
             DELETE_silo 2 ] 1 (Silo.mk "A" (Some "Soja") 100 10)).
  - reflexivity.
  - repeat constructor; discriminate.
Defined.

(** ** The newest operation in the summary *)

Lemma StronglySorted_head {A} (R : relation A) (l : list A) x :
  StronglySorted R l → x ∈ l → (∀ y, y ∈ l → y = x ∨ ¬ R y x) →
  ∃ l', l = x :: l'.
Proof.
  intros Hs Hx Hmax. destruct Hs as [|h t Ht Hall].
  - by apply elem_of_nil in Hx.
  - apply elem_of_cons in Hx as [->|Hx]; [eauto|].
    destruct (Hmax h) as [->|Hn]; [by left|eauto|].
    exfalso. apply Hn. by eapply Forall_forall in Hall.
Qed.

(** The summary of a store just after the commit of a load or unload,
    when no operation is later than the new one. *)
Lemma resumen_committed_first db k row op :
  db_inv (committed db k row op) → Operation.silo_id op = k →
  (∀ j o, operations db !! j = Some o →
          Operation.created_at o ≤ Operation.created_at op) →
  ∃ rest,
    resumen (committed db k row op)
    = Response
        (Resumen
           (mkEntry (next_id (operations db)) k (Some (Silo.name row))
                    (Operation.type op) (Operation.amount op)
                    (Operation.created_at op) (Some (Silo.balance_kg row))
            :: rest), 200).
Proof.
  intros Hinv Hop Hclock.
  rewrite (resumen_returns _ Hinv).
  destruct (StronglySorted_head resumen_order
              (query_operations (committed db k row op))
              (next_id (operations db), op)) as [l' ->].
  - apply query_operations_sorted.
  - apply elem_of_query_operations. simpl. apply lookup_insert_eq.
  - intros [j o] Hy%elem_of_query_operations. simpl in Hy.
    apply lookup_insert_Some in Hy as [[<- <-]|[Hne Hj]]; [by left|].
    right. unfold resumen_order. simpl.
    pose proof (Hclock _ _ Hj).
    destruct (next_id_bound (operations db) j) as [_ ?]; [by eexists|]. lia.
  - eexists. rewrite fmap_cons. unfold entry_of at 1. simpl.
    by rewrite Hop, lookup_insert_eq.
Qed.

(** X19: in a store reached by a sequence of requests, when no operation
    of the store has a creation instant later than the instant of a
    load or unload that is answered 200, the new operation is the first
    row of the summary asked for next, with the name of the silo and the
    balance told by the answer. *)
Theorem newest_operation_first (reqs : list request) k s body now :
  silos (run reqs empty_db) !! k = Some s →
  (∀ j o, operations (run reqs empty_db) !! j = Some o →
          Operation.created_at o ≤ now) →
  (∀ message b c,
     (cargar (run reqs empty_db) k body now).2 = Response (Carga message b c, 200) →
     ∃ rest,
       resumen (cargar (run reqs empty_db) k body now).1
       = Response
           (Resumen
              (mkEntry (next_id (operations (run reqs empty_db))) k
                       (Some (Silo.name s)) "CARGA" (default 0 (j_amount body))
                       now (Some b)
               :: rest), 200))
  ∧ (∀ message b,
       (descargar (run reqs empty_db) k body now).2
       = Response (Descarga message b, 200) →
       ∃ rest,
         resumen (descargar (run reqs empty_db) k body now).1
         = Response
             (Resumen
                (mkEntry (next_id (operations (run reqs empty_db))) k
                         (Some (Silo.name s)) "DESCARGA"
                         (default 0 (j_amount body)) now (Some b)
                 :: rest), 200)).
Proof.
  intros Hk Hclock. pose proof (reachable_inv reqs) as Hinv. split.
  - intros message b c Hresp.
    pose proof (cargar_inv _ k body now Hinv) as Hinv1.
    destruct (cargar_cases (run reqs empty_db) k body now)
      as [[_ Hf]|(s' & Hs' & _ & _ & _ & E)].
    { rewrite Hresp in Hf. done. }
    rewrite E in Hresp, Hinv1 |- *. cbn [fst snd] in Hresp, Hinv1 |- *.
    replace s' with s in * by congruence.
    injection Hresp as _ <- _.
    destruct (resumen_committed_first _ k _ _ Hinv1 eq_refl Hclock) as [rest ->].
    exists rest. by rewrite loaded_name.
  - intros message b Hresp.
    pose proof (descargar_inv _ k body now Hinv) as Hinv1.
    destruct (descargar_cases (run reqs empty_db) k body now)
      as [[_ Hf]|(s' & Hs' & _ & _ & E)].
    { rewrite Hresp in Hf. done. }
    rewrite E in Hresp, Hinv1 |- *. cbn [fst snd] in Hresp, Hinv1 |- *.
    replace s' with s in * by congruence.
    injection Hresp as _ <-.
    destruct (resumen_committed_first _ k _ _ Hinv1 eq_refl Hclock) as [rest ->].
    by exists rest.
Qed.

Lemma newest_operation_first_witness :
  ∃ rest,
    resumen (cargar db_two 1 (body_amount 5) 40).1
    = Response
        (Resumen (mkEntry 2 1 (Some "A") "CARGA" 5 40 (Some 105) :: rest), 200).
Proof.
  destruct (newest_operation_first
              [ POST_silos (body_name "A") 10;
                POST_cargar 1 (body_load 100 "Soja") 20;
                POST_silos (body_name "B") 30 ]
              1 (Silo.mk "A" (Some "Soja") 100 10) (body_amount 5) 40)
    as [H _].
  - reflexivity.
  - intros j o Hj.
    change (operations (run [ POST_silos (body_name "A") 10;
                POST_cargar 1 (body_load 100 "Soja") 20;
                POST_silos (body_name "B") 30 ] empty_db))
      with (<[1 := Operation.mk 1 "CARGA" 100 20]> (∅ : gmap Z Operation.t)) in Hj.
    apply lookup_insert_Some in Hj as [[_ <-]|[_ Hj]]; [simpl; lia|].
    by rewrite lookup_empty in Hj.
  - apply (H "Carga registrada." 105 (Some "Soja")). reflexivity.
Defined.

(** ** Requests that fit keep the balances in range *)

Lemma handle_fits_balances db r :
  fits db r →
  (∀ k s, silos db !! k = Some s → Silo.balance_kg s < 2 ^ 63) →
  ∀ k s, silos (handle db r).1 !! k = Some s → Silo.balance_kg s < 2 ^ 63.
Proof.
  intros Hfit Hall k s.
  destruct r as [body now|j body|j|j body now|j body now|]; simpl.
  - unfold create_silo. case_bool_decide; [apply Hall|].
    destruct (write_silo _ _ _) as [db'|] eqn:Hw; [|apply Hall].
    apply write_silo_Some in Hw as (_ & _ & ->). simpl.
    rewrite lookup_insert. case_decide; [|apply Hall].
    intros [= <-]. simpl. lia.
  - unfold rename_silo. case_bool_decide; [apply Hall|].
    destruct (silos db !! j) as [t|] eqn:Hj; [|apply Hall].
    destruct (write_silo _ _ _) as [db'|] eqn:Hw; [|apply Hall].
    apply write_silo_Some in Hw as (_ & _ & ->). simpl.
    rewrite lookup_insert. case_decide; [|apply Hall].
    intros [= <-]. simpl. by eapply Hall.
  - unfold delete_silo. destruct (silos db !! j); [|apply Hall]. simpl.
    intros [_ ?]%lookup_delete_Some. by eapply Hall.
  - destruct (cargar_cases db j body now)
      as [[-> _]|(t & Ht & _ & _ & _ & ->)]; [apply Hall|]. simpl.
    rewrite lookup_insert. case_decide; [|apply Hall].
    intros [= <-]. rewrite loaded_balance_kg.
    simpl in Hfit. destruct Hfit as [_ Hfit]. by rewrite Ht in Hfit.
  - destruct (descargar_cases db j body now)
      as [[-> _]|(t & Ht & Ha & _ & ->)]; [apply Hall|]. simpl.
    rewrite lookup_insert. case_decide; [|apply Hall].
    intros [= <-]. simpl. specialize (Hall _ _ Ht). lia.
  - apply Hall.
Qed.

(** After a sequence of requests that fit, every balance is below 2^63:
    the store of the model is one that the columns can hold. *)
Lemma all_fit_balances reqs db :
  all_fit db reqs →
  (∀ k s, silos db !! k = Some s → Silo.balance_kg s < 2 ^ 63) →
  ∀ k s, silos (run reqs db) !! k = Some s → Silo.balance_kg s < 2 ^ 63.
Proof.
  revert db. induction reqs as [|r reqs IH]; intros db Hfit Hall; [done|].
  destruct Hfit as [Hr Hfit]. simpl. apply IH; [done|].
  by apply handle_fits_balances.
Qed.
